(** * deluge-exporter: the session manager and the stats mapper

    A shallow embedding of [deluge-exporter.py] (class [DelugeCollector] and
    [main]) and the properties of its session handling and of its mapping
    from a Deluge Web UI snapshot to Prometheus samples.

    Conventions of the embedding.
    - A decoded JSON document is a value of [json]; a Python [dict] is an
      association list in insertion order (the order [items()] and
      [values()] iterate in).
    - Python exceptions are values of [exn]; an operation that can raise
      returns a [result].
    - The upstream Deluge Web UI is a function [server] from the requests
      posted so far (the last one being the current request) to the outcome
      of [session.post]; the requests posted and the calls made of
      [logging.info] and [logging.error] are the state threaded through the
      collector's methods.
    - [str.lower] is a parameter of the development: the properties hold
      for whatever it returns, and the few that need more assume that
      lower-casing twice is lower-casing once.
    - [REGISTRY.register] and [start_http_server] belong to the Prometheus
      client: the first runs the collector's [collect] once, the second is
      a parameter that may raise.
    - A generator ([collect]) is the list of the values it yields together
      with the exception that ended it, if any; the consumer is assumed to
      exhaust the generator, as the Prometheus registry does. *)

From Stdlib Require Import String Ascii List ZArith QArith Bool Lia Permutation.
Import ListNotations.
Local Open Scope string_scope.
Local Open Scope list_scope.
Set Warnings "-register-all".

(** ** Python values *)

(** The values [response.json()] produces.  A float is kept as a rational
    (JSON has neither NaN nor infinities). *)
Inductive json : Type :=
| JNull
| JBool (b : bool)
| JInt (z : Z)
| JFloat (q : Q)
| JStr (s : string)
| JArr (l : list json)
| JObj (kvs : list (string * json)).

(** The exceptions the program can raise.  The six [Get...] constructors are
    the [raise Exception(f"...")] statements of the source, one per message
    (the interpolated values are the arguments); the others are the built-in
    exceptions raised by subscripting, attribute lookup, iteration and
    [int], and what [requests] raises.  All of them are subclasses of
    [Exception]. *)
Inductive exn : Type :=
| GetStatsBadHTTP (code : Z) (text : string)
| GetStatsError (data : json)
| GetLoginBadHTTP (code : Z) (text : string)
| GetLoginBadCredentials
| GetConnectionBadHTTP (code : Z) (text : string)
| GetConnectionBadResponse (text : string)
| KeyError (key : json)
| TypeError
| AttributeError
| IndexError
| ValueError
| RequestException (what : string)
| JSONDecodeError.

Inductive result (A : Type) : Type :=
| Ok (a : A)
| Raise (e : exn).
Arguments Ok {A} a.
Arguments Raise {A} e.

(** [bool(v)]: Python truthiness. *)
Definition truthy (v : json) : bool :=
  match v with
  | JNull => false
  | JBool b => b
  | JInt z => negb (z =? 0)%Z
  | JFloat q => negb (Qnum q =? 0)%Z
  | JStr s => negb (String.eqb s "")
  | JArr l => match l with [] => false | _ => true end
  | JObj kvs => match kvs with [] => false | _ => true end
  end.

(** [v is None]. *)
Definition is_None (v : json) : bool :=
  match v with JNull => true | _ => false end.

(** [isinstance(v, int) or isinstance(v, float)]; [bool] is a subclass of
    [int]. *)
Definition is_int_or_float (v : json) : bool :=
  match v with
  | JBool _ | JInt _ | JFloat _ => true
  | _ => false
  end.

(** Dictionary lookup by key, first binding. *)
Fixpoint assoc (k : string) (kvs : list (string * json)) : option json :=
  match kvs with
  | [] => None
  | (k', v) :: rest => if String.eqb k k' then Some v else assoc k rest
  end.

(** [d[k] = v] on a dict: the binding of an existing key is replaced in
    place, a new key is appended. *)
Fixpoint assoc_set (k : string) (v : json) (kvs : list (string * json))
  : list (string * json) :=
  match kvs with
  | [] => [(k, v)]
  | (k', v') :: rest =>
      if String.eqb k k' then (k', v) :: rest else (k', v') :: assoc_set k v rest
  end.

(** [o["k"]] with a string subscript. *)
Definition getitem_str (o : json) (k : string) : result json :=
  match o with
  | JObj kvs =>
      match assoc k kvs with
      | Some v => Ok v
      | None => Raise (KeyError (JStr k))
      end
  | _ => Raise TypeError
  end.

(** The characters of a string, as Python one-character strings. *)
Fixpoint chars (s : string) : list json :=
  match s with
  | EmptyString => []
  | String c rest => JStr (String c EmptyString) :: chars rest
  end.

(** [o[n]] with a literal non-negative integer subscript. *)
Definition getitem_nat (o : json) (n : nat) : result json :=
  match o with
  | JArr l =>
      match nth_error l n with
      | Some v => Ok v
      | None => Raise IndexError
      end
  | JStr s =>
      match nth_error (chars s) n with
      | Some v => Ok v
      | None => Raise IndexError
      end
  | JObj _ => Raise (KeyError (JInt (Z.of_nat n)))
  | _ => Raise TypeError
  end.

(** [len(o)]. *)
Definition py_len (o : json) : result nat :=
  match o with
  | JStr s => Ok (String.length s)
  | JArr l => Ok (List.length l)
  | JObj kvs => Ok (List.length kvs)
  | _ => Raise TypeError
  end.

(** [iter(o)]: what a [for] loop over [o] ranges over. *)
Definition py_iter (o : json) : result (list json) :=
  match o with
  | JArr l => Ok l
  | JStr s => Ok (chars s)
  | JObj kvs => Ok (map (fun kv => JStr (fst kv)) kvs)
  | _ => Raise TypeError
  end.

(** [o.items()], [o.values()] and [o.get(k, default)] exist on dicts only. *)
Definition py_items (o : json) : result (list (string * json)) :=
  match o with
  | JObj kvs => Ok kvs
  | _ => Raise AttributeError
  end.

Definition py_get (o : json) (k : string) (default : json) : result json :=
  match o with
  | JObj kvs =>
      match assoc k kvs with
      | Some v => Ok v
      | None => Ok default
      end
  | _ => Raise AttributeError
  end.

(** What [str.lower] does on a string of ASCII characters: the letters A-Z
    are lower-cased and everything else is left as it is.  It stands for
    [str.lower] in the concrete runs at the end, whose data is ASCII. *)
Definition lower_ascii (c : ascii) : ascii :=
  let n := nat_of_ascii c in
  if (65 <=? n)%nat && (n <=? 90)%nat then ascii_of_nat (n + 32) else c.

Fixpoint ascii_lower (s : string) : string :=
  match s with
  | EmptyString => EmptyString
  | String c rest => String (lower_ascii c) (ascii_lower rest)
  end.

Section Python.

(** [str.lower], a built-in of the Python library: the program is modelled
    for whatever it returns.  The one fact about it that some properties
    need is that lower-casing a lower-cased string changes nothing. *)
Variable lower : string -> string.

Hypothesis lower_idempotent : forall s, lower (lower s) = lower s.

(** [o.lower()]: only [str] has the method. *)
Definition py_lower (o : json) : result json :=
  match o with
  | JStr s => Ok (JStr (lower s))
  | _ => Raise AttributeError
  end.

(** [s.endswith(suffix)]. *)
Definition endswith (s suffix : string) : bool :=
  let n := String.length s in
  let m := String.length suffix in
  (m <=? n)%nat && String.eqb (substring (n - m) m s) suffix.

(** ** The transport and the state threaded through the collector *)

(** The JSON-RPC request posted: the URL and the payload's [method] and
    [params] (its [id] is always 1). *)
Record request : Type := mkRequest {
  req_url : string;
  req_method : string;
  req_params : list json
}.

(** What the code reads of a [requests.Response]: [status_code], [text] and
    [json()], which raises when the body is not JSON ([None] here). *)
Record response : Type := mkResponse {
  status_code : Z;
  text : string;
  body : option json
}.

(** The outcome of [session.post]. *)
Inductive post_result : Type :=
| PostReturns (r : response)
| PostRaises (what : string).

Inductive level : Type := INFO | ERROR.

Inductive log_arg : Type :=
| LogStr (s : string)
| LogExn (e : exn).

(** The observable state: the requests posted and the calls made of
    [logging.info] and [logging.error] (level and argument), oldest first.
    Which of these calls the handler prints depends on the level the
    logging library has been configured with, which is outside the
    program. *)
Record world : Type := mkWorld {
  sent : list request;
  logged : list (level * log_arg)
}.

Definition world0 : world := mkWorld [] [].

(** Computations that post requests, log and may raise.  The state survives
    a raise, as it does in Python. *)
Definition M (A : Type) : Type := world -> result A * world.

Definition ret {A : Type} (a : A) : M A := fun w => (Ok a, w).

Definition raise {A : Type} (e : exn) : M A := fun w => (Raise e, w).

Definition bind {A B : Type} (m : M A) (k : A -> M B) : M B :=
  fun w =>
    match m w with
    | (Ok a, w') => k a w'
    | (Raise e, w') => (Raise e, w')
    end.

Definition lift {A : Type} (r : result A) : M A := fun w => (r, w).

Declare Scope py_scope.
Delimit Scope py_scope with py.
Notation "x <- m ;; k" := (bind m (fun x => k))
  (at level 100, m at next level, right associativity) : py_scope.
Notation "m ;;; k" := (bind m (fun _ => k))
  (at level 100, right associativity) : py_scope.
Local Open Scope py_scope.

Definition logging_info (s : string) : M unit :=
  fun w => (Ok tt, mkWorld (sent w) (logged w ++ [(INFO, LogStr s)])).

Definition logging_error (a : log_arg) : M unit :=
  fun w => (Ok tt, mkWorld (sent w) (logged w ++ [(ERROR, a)])).

(** [response.json()]. *)
Definition json_of (r : response) : result json :=
  match body r with
  | Some j => Ok j
  | None => Raise JSONDecodeError
  end.

(** The fields [__init__] stores ([session] is the transport below, and
    [metrics] is never used). *)
Record DelugeCollector : Type := mkCollector {
  deluge_api_url : string;
  deluge_password : string
}.

(** The field list of the [web.update_ui] payload. *)
Definition update_ui_keys : list string :=
  ["label"; "name"; "state"; "tracker_host"; "total_uploaded"; "total_wanted";
   "total_done"; "download_payload_rate"; "upload_payload_rate"; "total_peers";
   "total_seeds"; "num_peers"; "num_seeds"].

Section Session.

(** The upstream: the outcome of each post, given every request posted so
    far (the current one last). *)
Variable server : list request -> post_result.

Variable self : DelugeCollector.

(** [self.session.post(self.deluge_api_url, json=payload)]. *)
Definition session_post (method : string) (params : list json) : M response :=
  fun w =>
    let reqs := sent w ++ [mkRequest (deluge_api_url self) method params] in
    match server reqs with
    | PostReturns r => (Ok r, mkWorld reqs (logged w))
    | PostRaises what => (Raise (RequestException what), mkWorld reqs (logged w))
    end.

Definition get_webui_data : M json :=
  response <- session_post "web.update_ui"
                [JArr (map JStr update_ui_keys); JObj []] ;;
  if negb (status_code response =? 200)%Z then
    raise (GetStatsBadHTTP (status_code response) (text response))
  else
    response_json <- lift (json_of response) ;;
    lift (getitem_str response_json "result").

Definition get_login : M unit :=
  logging_info "Loging in Deluge Web UI..." ;;;
  response <- session_post "auth.login" [JStr (deluge_password self)] ;;
  if negb (status_code response =? 200)%Z then
    raise (GetLoginBadHTTP (status_code response) (text response))
  else
    response_json <- lift (json_of response) ;;
    res <- lift (getitem_str response_json "result") ;;
    if negb (truthy res) then raise GetLoginBadCredentials
    else logging_info "Loging successful!".

Definition get_connection : M unit :=
  logging_info "Connecting Deluge Web UI..." ;;;
  response <- session_post "web.get_hosts" [] ;;
  if negb (status_code response =? 200)%Z then
    raise (GetConnectionBadHTTP (status_code response) (text response))
  else
    response_json <- lift (json_of response) ;;
    res <- lift (getitem_str response_json "result") ;;
    too_short <- (if negb (truthy res) then ret true
                  else res' <- lift (getitem_str response_json "result") ;;
                       n <- lift (py_len res') ;;
                       ret (n <? 1)%nat) ;;
    if (too_short : bool) then raise (GetConnectionBadResponse (text response))
    else
      res <- lift (getitem_str response_json "result") ;;
      host <- lift (getitem_nat res 0) ;;
      server_id <- lift (getitem_nat host 0) ;;
      response <- session_post "web.connect" [server_id] ;;
      if negb (status_code response =? 200)%Z then
        raise (GetConnectionBadHTTP (status_code response) (text response))
      else
        response_json <- lift (json_of response) ;;
        res <- lift (getitem_str response_json "result") ;;
        if negb (truthy res) then
          raise (GetConnectionBadResponse (text response))
        else logging_info "Connected successful!".

Definition get_deluge_stats : M json :=
  data <- get_webui_data ;;
  data <- (if is_None data then get_login ;;; get_webui_data else ret data) ;;
  connected <- lift (getitem_str data "connected") ;;
  data <- (if negb (truthy connected) then get_connection ;;; get_webui_data
           else ret data) ;;
  unusable <- (if is_None data then ret true
               else connected <- lift (getitem_str data "connected") ;;
                    ret (negb (truthy connected))) ;;
  if (unusable : bool) then raise (GetStatsError data) else ret data.

End Session.

(** ** The stats mapper *)

Definition rbind {A B : Type} (r : result A) (k : A -> result B) : result B :=
  match r with
  | Ok a => k a
  | Raise e => Raise e
  end.

Notation "x <-? r ;; k" := (rbind r (fun x => k))
  (at level 100, r at next level, right associativity) : py_scope.

(** A sample added by [add_metric(labels, value)]: the label values and the
    value, as the Python objects passed. *)
Record sample : Type := mkSample {
  sample_labels : list json;
  sample_value : json
}.

(** A [GaugeMetricFamily]: name, documentation, label names, samples. *)
Record family : Type := mkFamily {
  fam_name : string;
  fam_doc : string;
  fam_labelnames : list string;
  fam_samples : list sample
}.

Definition GaugeMetricFamily (name doc : string) (labels : list string) : family :=
  mkFamily name doc labels [].

Definition add_metric (f : family) (labels : list json) (value : json) : family :=
  mkFamily (fam_name f) (fam_doc f) (fam_labelnames f)
           (fam_samples f ++ [mkSample labels value]).

(** An observation: metric name, label set (names zipped with values) and
    value. *)
Definition observation : Type := (string * list (string * json) * json)%type.

Definition family_observations (f : family) : list observation :=
  map (fun s => (fam_name f, combine (fam_labelnames f) (sample_labels s),
                 sample_value s))
      (fam_samples f).

Definition observations (fs : list family) : list observation :=
  flat_map family_observations fs.

(** The loops of lines 30-31 and 37-38:
    [for state in ...: fam.add_metric([state[0].lower()], state[1])]. *)
Fixpoint add_counts (fam : family) (entries : list json) : result family :=
  match entries with
  | [] => Ok fam
  | entry :: rest =>
      name <-? getitem_nat entry 0 ;;
      name <-? py_lower name ;;
      count <-? getitem_nat entry 1 ;;
      add_counts (add_metric fam [name] count) rest
  end.

(** Lines 27-32: torrents by state. *)
Definition state_section (deluge_stats : json) : result (list family) :=
  let fam := GaugeMetricFamily "deluge_torrent_state_count"
               "Number of torrents by state" ["state"] in
  filters <-? getitem_str deluge_stats "filters" ;;
  states <-? getitem_str filters "state" ;;
  entries <-? py_iter states ;;
  fam <-? add_counts fam entries ;;
  Ok [fam].

(** Lines 34-39: torrents by label. *)
Definition label_section (deluge_stats : json) : result (list family) :=
  let fam := GaugeMetricFamily "deluge_torrent_label_count"
               "Number of torrents by label" ["label"] in
  filters <-? getitem_str deluge_stats "filters" ;;
  labels <-? py_get filters "label" (JArr []) ;;
  entries <-? py_iter labels ;;
  fam <-? add_counts fam entries ;;
  Ok [fam].

(** Lines 42-48: one family per entry of [stats] that is an [int] or a
    [float]. *)
Fixpoint stats_families (items : list (string * json)) : list family :=
  match items with
  | [] => []
  | (key, value) :: rest =>
      if is_int_or_float value then
        add_metric (GaugeMetricFamily ("deluge_" ++ lower key)
                      ("Deluge metric " ++ key) []) [] value
        :: stats_families rest
      else stats_families rest
  end.

Definition stats_section (deluge_stats : json) : result (list family) :=
  stats <-? getitem_str deluge_stats "stats" ;;
  items <-? py_items stats ;;
  Ok (stats_families items).

(** A row appended to a list of [res]: [[name, state, tracker_host, value]]. *)
Definition torrent_row : Type := (json * json * json * json)%type.

(** The dict [res] of [process_torrents_stats], in insertion order. *)
Definition res_dict : Type := list (string * list torrent_row).

(** The keys of [res] (lines 141-151), each with the torrent field whose
    value lines 155-163 append under it. *)
Definition stat_fields : list (string * string) :=
  [("total_uploaded_bytes", "total_uploaded");
   ("total_wanted_bytes", "total_wanted");
   ("total_done_bytes", "total_done");
   ("download_payload_byte_rate", "download_payload_rate");
   ("upload_payload_byte_rate", "upload_payload_rate");
   ("peers_total", "total_peers");
   ("seeds_total", "total_seeds");
   ("peers_connected_total", "num_peers");
   ("seeds_connected_total", "num_seeds")].

Definition res_init : res_dict := map (fun kf => (fst kf, [])) stat_fields.

(** [res[key].append(row)]. *)
Fixpoint res_append (key : string) (row : torrent_row) (res : res_dict) : res_dict :=
  match res with
  | [] => []
  | (k, rows) :: rest =>
      if String.eqb key k then (k, rows ++ [row]) :: rest
      else (k, rows) :: res_append key row rest
  end.

(** One of lines 155-163:
    [res[key].append([torrent["name"], torrent["state"],
                      torrent["tracker_host"], torrent[field]])]. *)
Definition append_stat (torrent : json) (res : res_dict) (kf : string * string)
  : result res_dict :=
  name <-? getitem_str torrent "name" ;;
  state <-? getitem_str torrent "state" ;;
  tracker_host <-? getitem_str torrent "tracker_host" ;;
  value <-? getitem_str torrent (snd kf) ;;
  Ok (res_append (fst kf) (name, state, tracker_host, value) res).

Fixpoint append_stats (torrent : json) (res : res_dict) (kfs : list (string * string))
  : result res_dict :=
  match kfs with
  | [] => Ok res
  | kf :: rest =>
      res <-? append_stat torrent res kf ;;
      append_stats torrent res rest
  end.

(** [o[k] = v]. *)
Definition setitem_str (o : json) (k : string) (v : json) : result json :=
  match o with
  | JObj kvs => Ok (JObj (assoc_set k v kvs))
  | _ => Raise TypeError
  end.

(** The body of the loop of lines 153-163 on one torrent.  The second
    component is the torrent record afterwards: line 154 assigns to it. *)
Definition process_torrent (torrent : json) (res : res_dict)
  : result res_dict * json :=
  match (state <-? getitem_str torrent "state" ;;
         state <-? py_lower state ;;
         setitem_str torrent "state" state) with
  | Raise e => (Raise e, torrent)
  | Ok torrent' => (append_stats torrent' res stat_fields, torrent')
  end.

(** [for torrent in torrents.values(): ...]; the second component is the
    dict [torrents] afterwards. *)
Fixpoint process_values (torrents : list (string * json)) (res : res_dict)
  : result res_dict * list (string * json) :=
  match torrents with
  | [] => (Ok res, [])
  | (id, torrent) :: rest =>
      match process_torrent torrent res with
      | (Raise e, torrent') => (Raise e, (id, torrent') :: rest)
      | (Ok res', torrent') =>
          let (r, rest') := process_values rest res' in
          (r, (id, torrent') :: rest')
      end
  end.

Definition process_torrents_stats (torrents : json) : result res_dict * json :=
  match torrents with
  | JObj ts =>
      let (r, ts') := process_values ts res_init in (r, JObj ts')
  | _ => (Raise AttributeError, torrents)
  end.

(** Lines 52-57: one family, with one sample, per key of [res] and row. *)
Definition row_family (key : string) (row : torrent_row) : family :=
  let '(name, state, tracker_host, value) := row in
  add_metric (GaugeMetricFamily ("deluge_" ++ lower key)
                ("Deluge metric " ++ key ++ " by torrent")
                ["name"; "state"; "tracker_host"])
             [name; state; tracker_host] value.

Definition torrents_families (res : res_dict) : list family :=
  flat_map (fun kr => map (row_family (fst kr)) (snd kr)) res.

(** The object [deluge_stats] after its member [torrents] has become
    [torrents'] (the torrent records are mutated in place). *)
Definition with_torrents (deluge_stats torrents' : json) : json :=
  match deluge_stats with
  | JObj kvs => JObj (assoc_set "torrents" torrents' kvs)
  | _ => deluge_stats
  end.

(** Lines 50-57; the second component is [deluge_stats] afterwards. *)
Definition torrents_section (deluge_stats : json) : result (list family) * json :=
  match getitem_str deluge_stats "torrents" with
  | Raise e => (Raise e, deluge_stats)
  | Ok torrents =>
      let (r, torrents') := process_torrents_stats torrents in
      (res <-? r ;; Ok (torrents_families res),
       with_torrents deluge_stats torrents')
  end.

(** What a generator did: the families yielded, and the exception that ended
    it if it did not run to its end. *)
Definition generated : Type := (list family * option exn)%type.

(** Lines 27-57, the mapping of a snapshot: what [collect] yields from
    [deluge_stats], and [deluge_stats] afterwards. *)
Definition map_stats (deluge_stats : json) : generated * json :=
  match state_section deluge_stats with
  | Raise e => (([], Some e), deluge_stats)
  | Ok f1 =>
      match label_section deluge_stats with
      | Raise e => ((f1, Some e), deluge_stats)
      | Ok f2 =>
          match stats_section deluge_stats with
          | Raise e => ((f1 ++ f2, Some e), deluge_stats)
          | Ok f3 =>
              match torrents_section deluge_stats with
              | (Raise e, deluge_stats') =>
                  ((f1 ++ f2 ++ f3, Some e), deluge_stats')
              | (Ok f4, deluge_stats') =>
                  ((f1 ++ f2 ++ f3 ++ f4, None), deluge_stats')
              end
          end
      end
  end.

Section Collector.

Variable server : list request -> post_result.
Variable self : DelugeCollector.

(** [collect], lines 20-57. *)
Definition collect (w : world) : generated * world :=
  match get_deluge_stats server self w with
  | (Raise e, w') => (([], None), snd (logging_error (LogExn e) w'))
  | (Ok deluge_stats, w') => (fst (map_stats deluge_stats), w')
  end.

End Collector.

(** ** Construction and start-up *)

(** Line 14: the URL requests are posted to. *)
Definition api_url (deluge_url : string) : string :=
  (if endswith deluge_url "/" then deluge_url else deluge_url ++ "/") ++ "json".

Section Startup.

Variable server : list request -> post_result.

(** [DelugeCollector.__init__], lines 13-18: the result of the eager
    [get_deluge_stats] call is discarded. *)
Definition init (deluge_url deluge_password : string) : M DelugeCollector :=
  let self := mkCollector (api_url deluge_url) deluge_password in
  get_deluge_stats server self ;;;
  ret self.

(** [os.environ]. *)
Variable environ : list (string * string).

Fixpoint getenv (k : string) (env : list (string * string)) : option string :=
  match env with
  | [] => None
  | (k', v) :: rest => if String.eqb k k' then Some v else getenv k rest
  end.

(** [logging.basicConfig(..., level=logging.getLevelName(name), ...)],
    which raises on a level name that logging does not know, [int] on a
    string, and [prometheus_client.start_http_server(port, address)], which
    raises when it cannot bind: all three belong to libraries. *)
Variable basicConfig : string -> result unit.
Variable py_int : string -> result Z.
Variable start_http_server : Z -> string -> result unit.

(** How [main] ends: [sys.exit(status)], an exception nobody catches, or
    the endless [time.sleep] loop of lines 200-201. *)
Inductive ending : Type :=
| Exit (status : Z)
| Uncaught (e : exn)
| Sleeping.

(** The process: the transport and logging state, the collectors
    registered with [REGISTRY] and the address and port the metrics server
    listens on. *)
Record process : Type := mkProcess {
  io : world;
  registry : list DelugeCollector;
  listening : option (string * Z)
}.

Definition log_info (s : string) (w : world) : world :=
  snd (logging_info s w).

Definition log_error (a : log_arg) (w : world) : world :=
  snd (logging_error a w).

(** The state in which [main] constructs the collector. *)
Definition started : world :=
  log_info "Starting Deluge Prometheus Exporter ..." world0.

(** [REGISTRY.register(collector)], line 196.  To learn the names of the
    collector's metrics the registry runs [collector.collect()] to its end,
    which is one more scrape; an exception that ends the generator ends
    [register], and the collector is then not registered.  (The names all
    start with "deluge_", so none clashes with a metric of the collectors
    the library registers itself.) *)
Definition register (collector : DelugeCollector) : M unit :=
  fun w =>
    match collect server collector w with
    | ((_, Some e), w') => (Raise e, w')
    | ((_, None), w') => (Ok tt, w')
    end.

(** [main], lines 168-201. *)
Definition main : ending * process :=
  match basicConfig (match getenv "LOG_LEVEL" environ with
                     | Some l => l
                     | None => "INFO"
                     end) with
  | Raise e => (Uncaught e, mkProcess world0 [] None)
  | Ok _ =>
      let w := started in
      match getenv "DELUGE_URL" environ with
      | None =>
          (Exit 1,
           mkProcess
             (log_error (LogStr "Configuration error. The environment variable DELUGE_URL is mandatory") w)
             [] None)
      | Some deluge_url =>
          match getenv "DELUGE_PASSWORD" environ with
          | None =>
              (Exit 1,
               mkProcess
                 (log_error (LogStr "Configuration error. The environment variable DELUGE_PASSWORD is mandatory") w)
                 [] None)
          | Some deluge_password =>
              let exporter_address :=
                match getenv "LISTEN_ADDRESS" environ with
                | Some a => a
                | None => "0.0.0.0"
                end in
              match (match getenv "LISTEN_PORT" environ with
                     | Some p => py_int p
                     | None => Ok 8011%Z
                     end) with
              | Raise e => (Uncaught e, mkProcess w [] None)
              | Ok exporter_port =>
                  match init deluge_url deluge_password w with
                  | (Raise e, w') => (Uncaught e, mkProcess w' [] None)
                  | (Ok collector, w') =>
                      match register collector w' with
                      | (Raise e, w2) => (Uncaught e, mkProcess w2 [] None)
                      | (Ok _, w2) =>
                          match start_http_server exporter_port
                                                  exporter_address with
                          | Raise e =>
                              (Uncaught e, mkProcess w2 [collector] None)
                          | Ok _ =>
                              (Sleeping,
                               mkProcess
                                 (log_info
                                    "Server listening in http://%s:%d/metrics"
                                    w2)
                                 [collector]
                                 (Some (exporter_address, exporter_port)))
                          end
                      end
                  end
              end
          end
      end
  end.

End Startup.

(** ** The error taxonomy of the specification

    The source raises plain [Exception]s; the specification's error names
    are told apart by the message, that is by the raising statement. *)

(** [SessionError]: "Get stats error! Data: ..." (line 68). *)
Definition is_SessionError (e : exn) : bool :=
  match e with GetStatsError _ => true | _ => false end.

(** [AuthError]: the two "Get login error!" exceptions (lines 80 and 83). *)
Definition is_AuthError (e : exn) : bool :=
  match e with
  | GetLoginBadHTTP _ _ | GetLoginBadCredentials => true
  | _ => false
  end.

(** [ConnectionSetupError]: the "Get connection error!" exceptions (lines
    95, 98, 107 and 110). *)
Definition is_ConnectionSetupError (e : exn) : bool :=
  match e with
  | GetConnectionBadHTTP _ _ | GetConnectionBadResponse _ => true
  | _ => false
  end.

(** ** Scripted upstreams and sample data for the concrete runs *)

(** An upstream that answers the n-th request with the n-th outcome of a
    script, and becomes unreachable when the script is exhausted. *)
Definition scripted (script : list post_result) (history : list request)
  : post_result :=
  nth (List.length history - 1) script (PostRaises "ConnectionError").

(** A 200 response whose JSON body is [{"result": res}]. *)
Definition ok200 (res : json) : post_result :=
  PostReturns (mkResponse 200 "" (Some (JObj [("result", res)]))).

Definition a_collector : DelugeCollector :=
  mkCollector "http://deluge:8112/json" "deluge".

Definition update_ui_request (self : DelugeCollector) : request :=
  mkRequest (deluge_api_url self) "web.update_ui"
            [JArr (map JStr update_ui_keys); JObj []].

Definition login_request (self : DelugeCollector) : request :=
  mkRequest (deluge_api_url self) "auth.login" [JStr (deluge_password self)].

Definition get_hosts_request (self : DelugeCollector) : request :=
  mkRequest (deluge_api_url self) "web.get_hosts" [].

Definition connect_request (self : DelugeCollector) (server_id : json) : request :=
  mkRequest (deluge_api_url self) "web.connect" [server_id].

(** A complete torrent record. *)
Definition a_torrent (name state : string) : json :=
  JObj [("name", JStr name); ("state", JStr state);
        ("tracker_host", JStr "tracker.example.org");
        ("total_uploaded", JInt 10); ("total_wanted", JInt 20);
        ("total_done", JInt 30); ("download_payload_rate", JInt 40);
        ("upload_payload_rate", JInt 50); ("total_peers", JInt 60);
        ("total_seeds", JInt 70); ("num_peers", JInt 80);
        ("num_seeds", JInt 90)].

(** A connected snapshot with the given torrents. *)
Definition a_snapshot (torrents : list (string * json)) : json :=
  JObj [("connected", JBool true);
        ("filters",
         JObj [("state", JArr [JArr [JStr "Downloading"; JInt 3];
                               JArr [JStr "Seeding"; JInt 7]])]);
        ("stats", JObj [("upload_rate", JInt 1024);
                        ("external_ip", JStr "10.0.0.1");
                        ("has_incoming_connections", JBool true)]);
        ("torrents", JObj torrents)].

(** Lines 60-63 of [get_deluge_stats]: the status in hand when line 64
    tests [connected]. *)
Definition status_after_login (server : list request -> post_result)
  (self : DelugeCollector) : M json :=
  data <- get_webui_data server self ;;
  if is_None data then get_login server self ;;; get_webui_data server self
  else ret data.

(** Lines 67-69 of [get_deluge_stats]: the last test, on the status in
    hand after the recoveries. *)
Definition check_status (data : json) : result json :=
  unusable <-? (if is_None data then Ok true
                else connected <-? getitem_str data "connected" ;;
                     Ok (negb (truthy connected))) ;;
  if (unusable : bool) then Raise (GetStatsError data) else Ok data.

(** The state after the [web.get_hosts] request of [get_connection]. *)
Definition hosts_asked (self : DelugeCollector) (w : world) : world :=
  mkWorld (sent w ++ [get_hosts_request self])
          (logged w ++ [(INFO, LogStr "Connecting Deluge Web UI...")]).

(** The state after the [web.connect] request of [get_connection]. *)
Definition connect_asked (self : DelugeCollector) (w : world) (server_id : json)
  : world :=
  mkWorld (sent w ++ [get_hosts_request self; connect_request self server_id])
          (logged w ++ [(INFO, LogStr "Connecting Deluge Web UI...")]).

(** The state after a successful [get_connection]. *)
Definition connect_done (self : DelugeCollector) (w : world) (server_id : json)
  : world :=
  mkWorld (sent (connect_asked self w server_id))
          (logged (connect_asked self w server_id)
             ++ [(INFO, LogStr "Connected successful!")]).

(** ** Notions used to state the properties *)

(** The fields lines 154-163 read from a torrent record. *)
Definition torrent_fields : list string :=
  ["name"; "state"; "tracker_host"] ++ map snd stat_fields.

(** A torrent record that has every field of [torrent_fields]. *)
Definition complete (torrent : json) : bool :=
  forallb (fun k => match getitem_str torrent k with
                    | Ok _ => true
                    | Raise _ => false
                    end)
          torrent_fields.

(** An observation labelled with [name], [state] and [tracker_host]. *)
Definition is_torrent_observation (o : observation) : bool :=
  match map fst (snd (fst o)) with
  | [a; b; c] => String.eqb a "name" && String.eqb b "state"
                 && String.eqb c "tracker_host"
  | _ => false
  end.


(** The number of labels of an observation. *)
Abbreviation label_count o := (List.length (snd (fst o))).

(** What the specification has a torrent record contribute: one observation
    per counter, named after the key of [res] and labelled with the record's
    name, lower-cased state and tracker host. *)
Definition torrent_observations (torrent : json) : list observation :=
  match getitem_str torrent "name", getitem_str torrent "state",
        getitem_str torrent "tracker_host" with
  | Ok name, Ok (JStr state), Ok tracker_host =>
      flat_map
        (fun kf =>
           match getitem_str torrent (snd kf) with
           | Ok value =>
               [(("deluge_" ++ fst kf)%string,
                 [("name", name); ("state", JStr (lower state));
                  ("tracker_host", tracker_host)],
                 value)]
           | Raise _ => []
           end)
        stat_fields
  | _, _, _ => []
  end.

(** The per-torrent skip the specification describes, for the mapping of
    one snapshot: the generator runs to its end, and the torrent
    observations are those of the complete records, the others contributing
    none. *)
Definition skips_incomplete_torrents (deluge_stats : json) : Prop :=
  forall torrents,
    getitem_str deluge_stats "torrents" = Ok (JObj torrents) ->
    snd (fst (map_stats deluge_stats)) = None /\
    Permutation
      (filter is_torrent_observation
              (observations (fst (fst (map_stats deluge_stats)))))
      (flat_map (fun kv => torrent_observations (snd kv))
                (filter (fun kv => complete (snd kv)) torrents)).

(** What the specification has an entry of [stats] contribute. *)
Definition stat_observation (kv : string * json) : list observation :=
  if is_int_or_float (snd kv) then [(("deluge_" ++ lower (fst kv))%string, [], snd kv)]
  else [].

(** Line 154 on one torrent record, when it applies: [state] overwritten by
    its lower-cased form. *)
Definition lower_state (torrent : json) : json :=
  match torrent with
  | JObj kvs =>
      match assoc "state" kvs with
      | Some (JStr s) => JObj (assoc_set "state" (JStr (lower s)) kvs)
      | _ => torrent
      end
  | _ => torrent
  end.


(** ** Notions used to state further properties *)

(** The requests lines 64-66 can post: nothing, or the connect recovery as
    far as it gets, followed by the status query when it succeeds. *)
Definition connect_requests (self : DelugeCollector) (post : list request)
  : Prop :=
  post = [] \/
  post = [get_hosts_request self] \/
  exists server_id,
    post = [get_hosts_request self; connect_request self server_id] \/
    post = [get_hosts_request self; connect_request self server_id;
            update_ui_request self].

(** The requests one call of [get_deluge_stats] can post: the status query,
    then possibly the login and a second status query, then
    [connect_requests]. *)
Definition session_requests (self : DelugeCollector) (new : list request)
  : Prop :=
  exists post,
    connect_requests self post /\
    (new = update_ui_request self :: post \/
     new = [update_ui_request self; login_request self] \/
     new = update_ui_request self :: login_request self
             :: update_ui_request self :: post).

(** The upstream answers the request that completes [history] with a 200
    whose JSON body has [res] as its [result]. *)
Definition answers (server : list request -> post_result)
  (history : list request) (res : json) : Prop :=
  exists txt j,
    server history = PostReturns (mkResponse 200 txt (Some j)) /\
    getitem_str j "result" = Ok res.

(** A list of [[name, count]] pairs as the upstream reports a filter
    category. *)
Definition count_entries (pairs : list (string * json)) : json :=
  JArr (map (fun nc => JArr [JStr (fst nc); snd nc]) pairs).

(** The samples lines 30-31 and 37-38 add for such a list. *)
Definition count_samples (pairs : list (string * json)) : list sample :=
  map (fun nc => mkSample [JStr (lower (fst nc))] (snd nc)) pairs.





(** The observation lines 52-57 yield for a row of [res[key]]. *)
Definition row_observation (key : string) (row : torrent_row) : observation :=
  let '(name, state, tracker_host, value) := row in
  (("deluge_" ++ lower key)%string,
   [("name", name); ("state", state); ("tracker_host", tracker_host)],
   value).

(** The fields a record is subscripted with after line 154, in the order
    of the first subscript of each. *)
Definition fields_after_state : list string :=
  ["name"; "tracker_host"] ++ map snd stat_fields.

(** The first of [fields_after_state] a record lacks. *)
Definition first_missing (torrent : json) : option string :=
  find (fun k => match getitem_str torrent k with
                 | Ok _ => false
                 | Raise _ => true
                 end)
       fields_after_state.


(** A string that [str.lower] leaves as it is. *)
Definition is_lower_str (v : json) : bool :=
  match v with
  | JStr s => String.eqb (lower s) s
  | _ => false
  end.

(** A row of [res] whose state is such a string. *)
Definition row_state_lower (row : torrent_row) : bool :=
  let '(_, state, _, _) := row in is_lower_str state.


(** * Properties *)

(** ** Strings *)

Lemma lower_ascii_idempotent (c : ascii) :
  lower_ascii (lower_ascii c) = lower_ascii c.
Proof.
  destruct c as [[] [] [] [] [] [] [] []]; reflexivity.
Qed.

Lemma ascii_lower_idempotent (s : string) :
  ascii_lower (ascii_lower s) = ascii_lower s.
Proof.
  induction s as [|c s IH]; simpl.
  - reflexivity.
  - now rewrite lower_ascii_idempotent, IH.
Qed.

(** ** The session manager *)

(** One step of a symbolic run: reduce the state threading, then split on an
    innermost scrutinee. *)
Ltac run_step :=
  cbv beta iota zeta; cbn [sent logged];
  match goal with
  | |- context [match ?x with _ => _ end] =>
      lazymatch x with
      | context [match _ with _ => _ end] => fail
      | context [fun _ => _] => fail
      | _ => destruct x eqn:?
      end
  end.

Section SessionFacts.

Variable server : list request -> post_result.
Variable self : DelugeCollector.

(** A status query posts exactly one [web.update_ui] request and logs
    nothing. *)
Lemma get_webui_data_world (w w' : world) (r : result json) :
  get_webui_data server self w = (r, w') ->
  w' = mkWorld (sent w ++ [update_ui_request self]) (logged w).
Proof.
  unfold get_webui_data, bind, session_post, update_ui_request.
  destruct (server _) as [resp|what]; [|now inversion 1].
  destruct (negb _); [now inversion 1|].
  unfold lift. destruct (json_of resp); now inversion 1.
Qed.

(** [get_deluge_stats] is lines 60-63 followed by lines 64-69. *)
Lemma get_deluge_stats_unfold (w : world) :
  get_deluge_stats server self w =
  (data <- status_after_login server self ;;
   connected <- lift (getitem_str data "connected") ;;
   data <- (if negb (truthy connected)
            then get_connection server self ;;; get_webui_data server self
            else ret data) ;;
   unusable <- (if is_None data then ret true
                else connected <- lift (getitem_str data "connected") ;;
                     ret (negb (truthy connected))) ;;
   if (unusable : bool) then raise (GetStatsError data) else ret data) w.
Proof.
  unfold get_deluge_stats, status_after_login, bind.
  destruct (get_webui_data server self w) as [[data|e] w1]; [|reflexivity].
  destruct (is_None data); [|reflexivity].
  destruct (get_login server self w1) as [[[]|e] w2]; reflexivity.
Qed.

(** Whatever [get_deluge_stats] returns is a dict whose [connected] member
    is true. *)
Lemma get_deluge_stats_connected (w w' : world) (data : json) :
  get_deluge_stats server self w = (Ok data, w') ->
  exists connected,
    getitem_str data "connected" = Ok connected /\ truthy connected = true.
Proof.
  rewrite get_deluge_stats_unfold. unfold bind, lift, ret, raise.
  destruct (status_after_login server self w) as [[d1|e] w1]; [|discriminate].
  destruct (getitem_str d1 "connected") as [c1|e] eqn:Hc1; [|discriminate].
  destruct (negb (truthy c1)) eqn:Ht1.
  - destruct (get_connection server self w1) as [[[]|e] w2]; [|discriminate].
    destruct (get_webui_data server self w2) as [[d3|e] w3]; [|discriminate].
    destruct (is_None d3); [discriminate|].
    destruct (getitem_str d3 "connected") as [c3|e] eqn:Hc3; [|discriminate].
    destruct (negb (truthy c3)) eqn:Ht3; [discriminate|].
    intros H; inversion H; subst. exists c3. split; [assumption|].
    now apply negb_false_iff.
  - destruct (is_None d1); [discriminate|].
    rewrite Hc1, Ht1.
    intros H; inversion H; subst. exists c1. split; [assumption|].
    now apply negb_false_iff.
Qed.

(** A status that is still null after a successful login is subscripted by
    line 64. *)
Lemma status_null_after_login_raises_TypeError (w w1 w2 w3 : world) :
  get_webui_data server self w = (Ok JNull, w1) ->
  get_login server self w1 = (Ok tt, w2) ->
  get_webui_data server self w2 = (Ok JNull, w3) ->
  get_deluge_stats server self w = (Raise TypeError, w3).
Proof.
  intros H1 H2 H3. unfold get_deluge_stats, bind.
  rewrite H1. simpl. rewrite H2, H3. reflexivity.
Qed.

End SessionFacts.

(** C1, at the input the code fails on.  The first status query answers
    null, the login succeeds, and the second status query answers null
    again: the call ends in the [TypeError] of subscripting [None] at line
    64, not in the "Get stats error!" exception of line 68 (the
    specification's SessionError). *)
Theorem get_deluge_stats_null_after_login :
  get_deluge_stats (scripted [ok200 JNull; ok200 (JBool true); ok200 JNull])
                   a_collector world0
  = (Raise TypeError,
     mkWorld [update_ui_request a_collector; login_request a_collector;
              update_ui_request a_collector]
             [(INFO, LogStr "Loging in Deluge Web UI...");
              (INFO, LogStr "Loging successful!")])
  /\ is_SessionError TypeError = false.
Proof.
  split; reflexivity.
Qed.

(** C4.  When the status query answers null and the response to the login
    request has an HTTP status other than 200, or carries a false [result],
    [get_deluge_stats] raises one of the "Get login error!" exceptions
    (AuthError), and the only requests the call has posted are the status
    query and the login: no [web.get_hosts] and no [web.connect]. *)
Theorem login_failure_stops_before_connect
  (server : list request -> post_result) (self : DelugeCollector)
  (w w1 : world) (r : response) :
  get_webui_data server self w = (Ok JNull, w1) ->
  server (sent w1 ++ [login_request self]) = PostReturns r ->
  (status_code r <> 200%Z \/
   exists j res, body r = Some j /\ getitem_str j "result" = Ok res /\
                 truthy res = false) ->
  exists e w2,
    get_deluge_stats server self w = (Raise e, w2) /\
    is_AuthError e = true /\
    sent w2 = sent w ++ [update_ui_request self; login_request self] /\
    (forall q, In q [update_ui_request self; login_request self] ->
               req_method q <> "web.get_hosts" /\ req_method q <> "web.connect").
Proof.
  intros Hstatus Hpost Hfail.
  pose proof (get_webui_data_world _ _ _ _ _ Hstatus) as Hw1.
  assert (Hsent : sent w1 ++ [login_request self]
                  = sent w ++ [update_ui_request self; login_request self]).
  { rewrite Hw1. simpl. now rewrite <- app_assoc. }
  assert (Hq : forall q, In q [update_ui_request self; login_request self] ->
               req_method q <> "web.get_hosts" /\ req_method q <> "web.connect").
  { intros q [<-|[<-|[]]]; simpl; split; discriminate. }
  unfold get_deluge_stats, bind. rewrite Hstatus. simpl.
  unfold get_login, bind, logging_info, session_post. simpl.
  fold (login_request self). rewrite Hpost.
  destruct (status_code r =? 200)%Z eqn:Hcode; simpl.
  - destruct Hfail as [Hne|(j & res & Hj & Hres & Hfalse)].
    + apply Z.eqb_eq in Hcode. contradiction.
    + unfold lift, json_of. rewrite Hj, Hres, Hfalse. simpl.
      eexists _, _. repeat split; try reflexivity; try apply Hq; trivial.
  - eexists _, _. repeat split; try reflexivity; try apply Hq; trivial.
Qed.

(** C4 at a concrete upstream that rejects the password. *)
Lemma login_failure_stops_before_connect_witness :
  exists e w2,
    get_deluge_stats (scripted [ok200 JNull; ok200 (JBool false)])
                     a_collector world0 = (Raise e, w2) /\
    is_AuthError e = true /\
    sent w2 = sent world0 ++ [update_ui_request a_collector;
                              login_request a_collector] /\
    (forall q, In q [update_ui_request a_collector; login_request a_collector] ->
               req_method q <> "web.get_hosts" /\ req_method q <> "web.connect").
Proof.
  apply (login_failure_stops_before_connect
           (scripted [ok200 JNull; ok200 (JBool false)]) a_collector world0
           (mkWorld [update_ui_request a_collector] [])
           (mkResponse 200 "" (Some (JObj [("result", JBool false)])))).
  - reflexivity.
  - reflexivity.
  - right. exists (JObj [("result", JBool false)]), (JBool false).
    repeat split; reflexivity.
Defined.

(** ** The connect recovery *)

Section ConnectFacts.

Variable server : list request -> post_result.
Variable self : DelugeCollector.

(** Lines 64-69 once the status in hand says [connected] is false: the
    connect recovery, one more status query, and the last test. *)
Lemma get_deluge_stats_disconnected (w w1 : world) (data connected : json) :
  status_after_login server self w = (Ok data, w1) ->
  getitem_str data "connected" = Ok connected ->
  truthy connected = false ->
  get_deluge_stats server self w =
  match get_connection server self w1 with
  | (Raise e, w2) => (Raise e, w2)
  | (Ok _, w2) =>
      match get_webui_data server self w2 with
      | (Raise e, w3) => (Raise e, w3)
      | (Ok data', w3) => (check_status data', w3)
      end
  end.
Proof.
  intros H0 H1 H2. rewrite get_deluge_stats_unfold. unfold bind.
  rewrite H0. unfold lift at 1. rewrite H1, H2.
  change (negb false) with true. cbv beta iota.
  destruct (get_connection server self w1) as [[[]|e] w2]; [|reflexivity].
  destruct (get_webui_data server self w2) as [[d3|e] w3]; [|reflexivity].
  unfold check_status, rbind, lift, ret, raise.
  destruct (is_None d3); [reflexivity|].
  destruct (getitem_str d3 "connected") as [c3|e]; [|reflexivity].
  destruct (negb (truthy c3)); reflexivity.
Qed.

(** The connect recovery always starts by posting [web.get_hosts]. *)
Lemma get_connection_posts_get_hosts (w w' : world) (r : result unit) :
  get_connection server self w = (r, w') ->
  exists rest, sent w' = sent w ++ [get_hosts_request self] ++ rest.
Proof.
  unfold get_connection, bind, logging_info, session_post, lift, ret, raise.
  fold (get_hosts_request self).
  repeat run_step;
    cbv beta iota zeta; intros H; injection H as <- <-; cbn [sent];
    first [ exists []; reflexivity
          | eexists; rewrite <- app_assoc; reflexivity ].
Qed.

(** Line 97: a false [result] of [web.get_hosts] is the "Bad response"
    error, and nothing more is posted. *)
Lemma get_connection_no_hosts (w : world) (txt : string) (j hosts : json) :
  server (sent w ++ [get_hosts_request self])
  = PostReturns (mkResponse 200 txt (Some j)) ->
  getitem_str j "result" = Ok hosts ->
  truthy hosts = false ->
  get_connection server self w
  = (Raise (GetConnectionBadResponse txt), hosts_asked self w).
Proof.
  intros Hpost Hres Hfalse.
  unfold get_connection, bind, logging_info, session_post, lift, ret, raise.
  fold (get_hosts_request self). cbv beta iota zeta. cbn [sent logged].
  rewrite Hpost. cbn [status_code text json_of body Z.eqb Pos.eqb negb].
  rewrite Hres, Hfalse. reflexivity.
Qed.

(** Lines 99-111: with a host list whose first entry starts with [id], the
    next request is [web.connect] with [id], and its response decides. *)
Lemma get_connection_first_host (w : world) (txt : string)
  (j id : json) (host hosts : list json) :
  server (sent w ++ [get_hosts_request self])
  = PostReturns (mkResponse 200 txt (Some j)) ->
  getitem_str j "result" = Ok (JArr (JArr (id :: host) :: hosts)) ->
  get_connection server self w =
  match server (sent w ++ [get_hosts_request self; connect_request self id]) with
  | PostRaises what => (Raise (RequestException what), connect_asked self w id)
  | PostReturns r =>
      if negb (status_code r =? 200)%Z then
        (Raise (GetConnectionBadHTTP (status_code r) (text r)), connect_asked self w id)
      else
        match json_of r with
        | Raise e => (Raise e, connect_asked self w id)
        | Ok j' =>
            match getitem_str j' "result" with
            | Raise e => (Raise e, connect_asked self w id)
            | Ok res =>
                if negb (truthy res) then
                  (Raise (GetConnectionBadResponse (text r)), connect_asked self w id)
                else (Ok tt, connect_done self w id)
            end
        end
  end.
Proof.
  intros Hpost Hres.
  unfold get_connection, bind, logging_info, session_post, lift, ret, raise.
  fold (get_hosts_request self). cbv beta iota zeta. cbn [sent logged].
  rewrite Hpost. cbn [status_code text json_of body Z.eqb Pos.eqb negb].
  rewrite Hres.
  cbn [truthy negb py_len List.length Nat.ltb Nat.leb getitem_nat nth_error].
  fold (connect_request self id). unfold connect_done, connect_asked.
  cbn [sent logged]. rewrite <- app_assoc. cbn [app].
  destruct (server (sent w ++ [_; _])) as [r|what]; [|reflexivity].
  destruct (negb (status_code r =? 200)%Z); [reflexivity|].
  destruct (json_of r) as [j'|e]; [|reflexivity].
  destruct (getitem_str j' "result") as [res|e]; [|reflexivity].
  destruct (negb (truthy res)); reflexivity.
Qed.

End ConnectFacts.

(** C5, as the code has it.  When the status in hand at line 64 says
    [connected] is false, [get_deluge_stats] posts [web.get_hosts]; a host
    list that is empty or otherwise false (null) ends the call with the
    "Get connection error!" exception (ConnectionSetupError); with a host
    list whose first entry starts with [id] the next request is
    [web.connect] with [id]; a connect response that is not a 200, or whose
    [result] is false, ends the call with ConnectionSetupError; and on
    success the status is queried exactly once more and lines 67-69 decide
    on that answer. *)
Theorem connect_recovery
  (server : list request -> post_result) (self : DelugeCollector)
  (w w1 : world) (data connected : json) :
  status_after_login server self w = (Ok data, w1) ->
  getitem_str data "connected" = Ok connected ->
  truthy connected = false ->
  (exists r w' rest,
     get_deluge_stats server self w = (r, w') /\
     sent w' = sent w1 ++ [get_hosts_request self] ++ rest)
  /\
  (forall txt j hosts,
     server (sent w1 ++ [get_hosts_request self])
     = PostReturns (mkResponse 200 txt (Some j)) ->
     getitem_str j "result" = Ok hosts ->
     truthy hosts = false ->
     is_ConnectionSetupError (GetConnectionBadResponse txt) = true /\
     get_deluge_stats server self w
     = (Raise (GetConnectionBadResponse txt), hosts_asked self w1))
  /\
  (forall txt j id host hosts,
     server (sent w1 ++ [get_hosts_request self])
     = PostReturns (mkResponse 200 txt (Some j)) ->
     getitem_str j "result" = Ok (JArr (JArr (id :: host) :: hosts)) ->
     (exists r w' rest,
        get_deluge_stats server self w = (r, w') /\
        sent w' = sent w1 ++ [get_hosts_request self; connect_request self id]
                    ++ rest)
     /\
     (forall r,
        server (sent w1 ++ [get_hosts_request self; connect_request self id])
        = PostReturns r ->
        (status_code r <> 200%Z \/
         exists j' res, body r = Some j' /\ getitem_str j' "result" = Ok res /\
                        truthy res = false) ->
        exists e,
          is_ConnectionSetupError e = true /\
          get_deluge_stats server self w = (Raise e, connect_asked self w1 id))
     /\
     (forall txt' j' res,
        server (sent w1 ++ [get_hosts_request self; connect_request self id])
        = PostReturns (mkResponse 200 txt' (Some j')) ->
        getitem_str j' "result" = Ok res ->
        truthy res = true ->
        exists r3 w3,
          get_webui_data server self (connect_done self w1 id) = (r3, w3) /\
          sent w3 = sent w1 ++ [get_hosts_request self; connect_request self id;
                                update_ui_request self] /\
          get_deluge_stats server self w = (rbind r3 check_status, w3))).
Proof.
  intros H0 H1 H2.
  pose proof (get_deluge_stats_disconnected server self _ _ _ _ H0 H1 H2) as Hrun.
  split; [|split].
  - rewrite Hrun.
    destruct (get_connection server self w1) as [[[]|e] w2] eqn:Hc;
      destruct (get_connection_posts_get_hosts _ _ _ _ _ Hc) as [rest Hrest].
    + destruct (get_webui_data server self w2) as [[d3|e] w3] eqn:Hq;
        pose proof (get_webui_data_world _ _ _ _ _ Hq) as ->; cbn [sent];
        eexists _, _, _; (split; [reflexivity|]); cbn [sent];
        rewrite Hrest, <- !app_assoc; reflexivity.
    + eexists _, _, _. split; [reflexivity|]. exact Hrest.
  - intros txt j hosts Hpost Hres Hfalse. split; [reflexivity|].
    rewrite Hrun, (get_connection_no_hosts _ _ _ _ _ _ Hpost Hres Hfalse).
    reflexivity.
  - intros txt j id host hosts Hpost Hres.
    pose proof (get_connection_first_host _ _ _ _ _ _ _ _ Hpost Hres) as Hconn.
    rewrite Hrun, Hconn. clear Hrun Hconn.
    split; [|split].
    + destruct (server (sent w1 ++ [_; _])) as [r|what].
      2:{ exists (Raise (RequestException what)), (connect_asked self w1 id), [].
          split; [reflexivity|]. cbn [sent connect_asked]. now rewrite app_nil_r. }
      destruct (negb (status_code r =? 200)%Z).
      { eexists _, (connect_asked self w1 id), [].
        split; [reflexivity|]. cbn [sent connect_asked]. now rewrite app_nil_r. }
      destruct (json_of r) as [j'|e].
      2:{ eexists _, (connect_asked self w1 id), [].
          split; [reflexivity|]. cbn [sent connect_asked]. now rewrite app_nil_r. }
      destruct (getitem_str j' "result") as [res|e].
      2:{ eexists _, (connect_asked self w1 id), [].
          split; [reflexivity|]. cbn [sent connect_asked]. now rewrite app_nil_r. }
      destruct (negb (truthy res)).
      { eexists _, (connect_asked self w1 id), [].
        split; [reflexivity|]. cbn [sent connect_asked]. now rewrite app_nil_r. }
      destruct (get_webui_data server self (connect_done self w1 id))
        as [[d3|e] w3] eqn:Hq;
        pose proof (get_webui_data_world _ _ _ _ _ Hq) as ->;
        eexists _, _, [update_ui_request self];
        (split; [reflexivity|]);
        cbn [sent connect_done connect_asked]; rewrite <- app_assoc; reflexivity.
    + intros r Hr Hfail. rewrite Hr.
      destruct (status_code r =? 200)%Z eqn:Hcode; cbn [negb].
      * destruct Hfail as [Hne|(j' & res & Hj & Hres' & Hfalse)].
        { apply Z.eqb_eq in Hcode. contradiction. }
        unfold json_of. rewrite Hj, Hres', Hfalse. cbn [negb].
        eexists. split; [|reflexivity]. reflexivity.
      * eexists. split; [|reflexivity]. reflexivity.
    + intros txt' j' res Hr Hres' Htrue. rewrite Hr.
      cbn [status_code text json_of body Z.eqb Pos.eqb negb].
      rewrite Hres', Htrue. cbn [negb].
      destruct (get_webui_data server self (connect_done self w1 id))
        as [[d3|e] w3] eqn:Hq;
        pose proof (get_webui_data_world _ _ _ _ _ Hq) as Hw3;
        eexists _, _; (split; [reflexivity|]); (split; [|reflexivity]);
        rewrite Hw3; cbn [sent connect_done connect_asked];
        rewrite <- app_assoc; reflexivity.
Qed.

(** C5 on a concrete run: the upstream reports a disconnected session, one
    host and a successful connect, then a connected snapshot. *)
Lemma connect_recovery_witness :
  exists r3 w3,
    get_webui_data
      (scripted [ok200 (JObj [("connected", JBool false)]);
                 ok200 (JArr [JArr [JStr "host-1"; JStr "127.0.0.1"]]);
                 ok200 (JBool true);
                 ok200 (a_snapshot [])])
      a_collector
      (connect_done a_collector
         (mkWorld [update_ui_request a_collector] []) (JStr "host-1"))
    = (r3, w3) /\
    sent w3 = [update_ui_request a_collector]
                ++ [get_hosts_request a_collector;
                    connect_request a_collector (JStr "host-1");
                    update_ui_request a_collector] /\
    get_deluge_stats
      (scripted [ok200 (JObj [("connected", JBool false)]);
                 ok200 (JArr [JArr [JStr "host-1"; JStr "127.0.0.1"]]);
                 ok200 (JBool true);
                 ok200 (a_snapshot [])])
      a_collector world0
    = (rbind r3 check_status, w3).
Proof.
  destruct (connect_recovery
              (scripted [ok200 (JObj [("connected", JBool false)]);
                         ok200 (JArr [JArr [JStr "host-1"; JStr "127.0.0.1"]]);
                         ok200 (JBool true);
                         ok200 (a_snapshot [])])
              a_collector world0
              (mkWorld [update_ui_request a_collector] [])
              (JObj [("connected", JBool false)]) (JBool false)
              eq_refl eq_refl eq_refl) as (_ & _ & Hhosts).
  destruct (Hhosts "" (JObj [("result",
                              JArr [JArr [JStr "host-1"; JStr "127.0.0.1"]])])
                   (JStr "host-1") [JStr "127.0.0.1"] [] eq_refl eq_refl)
    as (_ & _ & Hsuccess).
  exact (Hsuccess "" (JObj [("result", JBool true)]) (JBool true)
                  eq_refl eq_refl eq_refl).
Defined.

(** C5 fails as stated: a host list that is malformed without being empty,
    here one whose only entry is an empty list, ends the call with the
    [IndexError] of subscripting that entry at line 99, which is not a
    "Get connection error!" exception. *)
Lemma connect_recovery_malformed_hosts :
  get_deluge_stats
    (scripted [ok200 (JObj [("connected", JBool false)]);
               ok200 (JArr [JArr []])])
    a_collector world0
  = (Raise IndexError,
     hosts_asked a_collector (mkWorld [update_ui_request a_collector] []))
  /\
  ~ (exists e w',
       get_deluge_stats
         (scripted [ok200 (JObj [("connected", JBool false)]);
                    ok200 (JArr [JArr []])])
         a_collector world0 = (Raise e, w') /\
       is_ConnectionSetupError e = true).
Proof.
  split; [reflexivity|].
  intros (e & w' & Hrun & He).
  vm_compute in Hrun. injection Hrun as <- _. discriminate He.
Qed.

(** ** Dictionaries *)

Lemma assoc_set_same (k : string) (v : json) (kvs : list (string * json)) :
  assoc k (assoc_set k v kvs) = Some v.
Proof.
  induction kvs as [|[k' v'] kvs IH]; simpl.
  - now rewrite String.eqb_refl.
  - destruct (String.eqb k k') eqn:E; simpl; rewrite E; [reflexivity|exact IH].
Qed.

Lemma assoc_set_other (k k' : string) (v : json) (kvs : list (string * json)) :
  k <> k' -> assoc k (assoc_set k' v kvs) = assoc k kvs.
Proof.
  intros Hne. induction kvs as [|[k0 v0] kvs IH]; simpl.
  - destruct (String.eqb_spec k k'); [contradiction|reflexivity].
  - destruct (String.eqb_spec k' k0) as [->|Hk0]; simpl.
    + destruct (String.eqb_spec k k0); [contradiction|reflexivity].
    + destruct (String.eqb k k0); [reflexivity|exact IH].
Qed.

Lemma assoc_set_idempotent (k : string) (v : json) (kvs : list (string * json)) :
  assoc_set k v (assoc_set k v kvs) = assoc_set k v kvs.
Proof.
  induction kvs as [|[k' v'] kvs IH]; simpl.
  - now rewrite String.eqb_refl.
  - destruct (String.eqb k k') eqn:E; simpl; rewrite E; [reflexivity|].
    now rewrite IH.
Qed.

(** ** The torrent loop and the snapshot it writes to *)

(** Whatever happens to a torrent record in the loop, line 154 is all that
    has been done to it. *)
Lemma process_torrent_record (torrent : json) (res : res_dict) :
  snd (process_torrent torrent res) = lower_state torrent.
Proof.
  unfold process_torrent, lower_state, rbind, getitem_str.
  destruct torrent as [| | | | | |kvs]; try reflexivity.
  destruct (assoc "state" kvs) as [[| | | |s| |]|]; reflexivity.
Qed.

(** Running the loop body again on the record it has written to gives the
    same rows, or the same exception, and writes nothing new. *)
Lemma process_torrent_again (torrent : json) (res : res_dict) :
  process_torrent (lower_state torrent) res
  = (fst (process_torrent torrent res), lower_state torrent).
Proof.
  unfold process_torrent, lower_state, rbind, getitem_str.
  destruct torrent as [| | | | | |kvs]; try reflexivity.
  destruct (assoc "state" kvs) as [[| | | |s| |]|] eqn:Hs;
    try (rewrite Hs; reflexivity).
  rewrite assoc_set_same. cbn [py_lower setitem_str fst].
  now rewrite lower_idempotent, assoc_set_idempotent.
Qed.

Lemma lower_state_idempotent (torrent : json) :
  lower_state (lower_state torrent) = lower_state torrent.
Proof.
  rewrite <- (process_torrent_record (lower_state torrent) []).
  now rewrite process_torrent_again.
Qed.


(** Running the loop again on the dict it has written to gives the same
    [res], or the same exception, and leaves the dict as it is. *)
Lemma process_values_again (torrents : list (string * json)) :
  forall res,
    process_values (snd (process_values torrents res)) res
    = process_values torrents res.
Proof.
  induction torrents as [|[id torrent] rest IH]; intros res; simpl.
  - reflexivity.
  - pose proof (process_torrent_record torrent res) as Hrec.
    pose proof (process_torrent_again torrent res) as Hagain.
    destruct (process_torrent torrent res) as [[res1|e] torrent1];
      simpl in Hrec, Hagain; subst torrent1.
    + specialize (IH res1).
      destruct (process_values rest res1) as [r rest'] eqn:Hrest.
      simpl in *. rewrite Hagain, IH. reflexivity.
    + simpl. rewrite Hagain. reflexivity.
Qed.

Lemma process_torrents_stats_again (torrents : json) :
  process_torrents_stats (snd (process_torrents_stats torrents))
  = process_torrents_stats torrents.
Proof.
  destruct torrents as [| | | | | |ts]; try reflexivity.
  unfold process_torrents_stats.
  pose proof (process_values_again ts res_init) as Hagain.
  destruct (process_values ts res_init) as [r ts']. simpl in *.
  now rewrite Hagain.
Qed.


Lemma getitem_with_torrents_other (deluge_stats torrents' : json) (k : string) :
  k <> "torrents" ->
  getitem_str (with_torrents deluge_stats torrents') k
  = getitem_str deluge_stats k.
Proof.
  intros Hne. destruct deluge_stats as [| | | | | |kvs]; try reflexivity.
  simpl. now rewrite assoc_set_other.
Qed.

Lemma getitem_with_torrents (deluge_stats torrents torrents' : json) :
  getitem_str deluge_stats "torrents" = Ok torrents ->
  getitem_str (with_torrents deluge_stats torrents') "torrents" = Ok torrents'.
Proof.
  destruct deluge_stats as [| | | | | |kvs]; try discriminate.
  intros _. simpl. now rewrite assoc_set_same.
Qed.

Lemma with_torrents_again (deluge_stats torrents' : json) :
  with_torrents (with_torrents deluge_stats torrents') torrents'
  = with_torrents deluge_stats torrents'.
Proof.
  destruct deluge_stats as [| | | | | |kvs]; try reflexivity.
  simpl. now rewrite assoc_set_idempotent.
Qed.


(** The first three sections read [filters] and [stats] only. *)
Lemma state_section_with_torrents (deluge_stats torrents' : json) :
  state_section (with_torrents deluge_stats torrents')
  = state_section deluge_stats.
Proof.
  unfold state_section. now rewrite getitem_with_torrents_other.
Qed.

Lemma label_section_with_torrents (deluge_stats torrents' : json) :
  label_section (with_torrents deluge_stats torrents')
  = label_section deluge_stats.
Proof.
  unfold label_section. now rewrite getitem_with_torrents_other.
Qed.

Lemma stats_section_with_torrents (deluge_stats torrents' : json) :
  stats_section (with_torrents deluge_stats torrents')
  = stats_section deluge_stats.
Proof.
  unfold stats_section. now rewrite getitem_with_torrents_other.
Qed.

(** The snapshot after the torrents section. *)
Lemma torrents_section_snapshot (deluge_stats : json) :
  snd (torrents_section deluge_stats)
  = match getitem_str deluge_stats "torrents" with
    | Ok torrents =>
        with_torrents deluge_stats (snd (process_torrents_stats torrents))
    | Raise _ => deluge_stats
    end.
Proof.
  unfold torrents_section.
  destruct (getitem_str deluge_stats "torrents") as [torrents|e]; [|reflexivity].
  now destruct (process_torrents_stats torrents).
Qed.

Lemma torrents_section_again (deluge_stats : json) :
  torrents_section (snd (torrents_section deluge_stats))
  = torrents_section deluge_stats.
Proof.
  rewrite torrents_section_snapshot. unfold torrents_section.
  destruct (getitem_str deluge_stats "torrents") as [torrents|e] eqn:Hget.
  - rewrite (getitem_with_torrents _ _ _ Hget).
    rewrite process_torrents_stats_again.
    destruct (process_torrents_stats torrents) as [r torrents'].
    simpl. now rewrite with_torrents_again.
  - now rewrite Hget.
Qed.

(** Mapping the snapshot the mapping has written to yields the same
    families, ends the same way and writes nothing new. *)
Lemma map_stats_again (deluge_stats : json) :
  map_stats (snd (map_stats deluge_stats)) = map_stats deluge_stats.
Proof.
  unfold map_stats at 2 3.
  destruct (state_section deluge_stats) as [f1|e] eqn:H1;
    [|simpl; unfold map_stats; now rewrite H1].
  destruct (label_section deluge_stats) as [f2|e] eqn:H2;
    [|simpl; unfold map_stats; now rewrite H1, H2].
  destruct (stats_section deluge_stats) as [f3|e] eqn:H3;
    [|simpl; unfold map_stats; now rewrite H1, H2, H3].
  pose proof (torrents_section_again deluge_stats) as Hagain.
  pose proof (torrents_section_snapshot deluge_stats) as Hsnap.
  assert (Hpre : state_section (snd (torrents_section deluge_stats)) = Ok f1 /\
                 label_section (snd (torrents_section deluge_stats)) = Ok f2 /\
                 stats_section (snd (torrents_section deluge_stats)) = Ok f3).
  { rewrite Hsnap.
    destruct (getitem_str deluge_stats "torrents"); [|now auto].
    now rewrite state_section_with_torrents, label_section_with_torrents,
      stats_section_with_torrents. }
  destruct Hpre as (H1' & H2' & H3').
  destruct (torrents_section deluge_stats) as [[f4|e] after] eqn:H4;
    simpl in *; unfold map_stats; now rewrite H1', H2', H3', Hagain.
Qed.

(** C7.  Mapping a snapshot a second time, after the first mapping has
    written the lower-cased states into it, yields the same multiset of
    observations as the first mapping (the same list, in fact) and ends the
    same way. *)
Theorem mapping_twice_same_observations (deluge_stats : json) :
  Permutation
    (observations (fst (fst (map_stats (snd (map_stats deluge_stats))))))
    (observations (fst (fst (map_stats deluge_stats))))
  /\ snd (fst (map_stats (snd (map_stats deluge_stats))))
     = snd (fst (map_stats deluge_stats)).
Proof.
  rewrite map_stats_again. split; [apply Permutation_refl|reflexivity].
Qed.

(** ** The observations of each section *)

Lemma observations_app (fs gs : list family) :
  observations (fs ++ gs) = observations fs ++ observations gs.
Proof. apply flat_map_app. Qed.

Lemma add_counts_samples (entries : list json) :
  forall fam fam',
    add_counts fam entries = Ok fam' ->
    fam_labelnames fam' = fam_labelnames fam /\
    exists new,
      fam_samples fam' = fam_samples fam ++ new /\
      Forall (fun s => List.length (sample_labels s) = 1%nat) new.
Proof.
  induction entries as [|entry rest IH]; intros fam fam'; simpl.
  - intros [= <-]. split; [reflexivity|]. exists []. now rewrite app_nil_r.
  - unfold rbind.
    destruct (getitem_nat entry 0) as [name|e]; [|discriminate].
    destruct (py_lower name) as [name'|e]; [|discriminate].
    destruct (getitem_nat entry 1) as [count|e]; [|discriminate].
    intros H. destruct (IH _ _ H) as (Hnames & new & Hsamples & Hnew).
    split; [exact Hnames|].
    exists (mkSample [name'] count :: new). split.
    + rewrite Hsamples. simpl. now rewrite <- app_assoc.
    + constructor; [reflexivity|exact Hnew].
Qed.

(** A family built by [add_counts] from an empty family with one label name
    has one label on each observation. *)
Lemma counts_family_observations (name doc label : string)
  (entries : list json) (fam : family) :
  add_counts (GaugeMetricFamily name doc [label]) entries = Ok fam ->
  Forall (fun o => label_count o = 1%nat) (observations [fam]).
Proof.
  intros H. destruct (add_counts_samples _ _ _ H) as (Hnames & new & Hs & Hnew).
  simpl in Hnames, Hs. unfold observations. simpl. rewrite app_nil_r.
  unfold family_observations. rewrite Hnames, Hs.
  apply Forall_map. revert Hnew. apply Forall_impl.
  intros s Hlen. simpl.
  destruct (sample_labels s) as [|v [|v' vs]]; try discriminate. reflexivity.
Qed.

Lemma state_section_observations (deluge_stats : json) (f1 : list family) :
  state_section deluge_stats = Ok f1 ->
  Forall (fun o => label_count o = 1%nat) (observations f1).
Proof.
  unfold state_section, rbind.
  destruct (getitem_str deluge_stats "filters") as [filters|e]; [|discriminate].
  destruct (getitem_str filters "state") as [states|e]; [|discriminate].
  destruct (py_iter states) as [entries|e]; [|discriminate].
  destruct (add_counts _ entries) as [fam|e] eqn:Hfam; [|discriminate].
  intros [= <-]. exact (counts_family_observations _ _ _ _ _ Hfam).
Qed.

Lemma label_section_observations (deluge_stats : json) (f2 : list family) :
  label_section deluge_stats = Ok f2 ->
  Forall (fun o => label_count o = 1%nat) (observations f2).
Proof.
  unfold label_section, rbind.
  destruct (getitem_str deluge_stats "filters") as [filters|e]; [|discriminate].
  destruct (py_get filters "label" (JArr [])) as [labels|e]; [|discriminate].
  destruct (py_iter labels) as [entries|e]; [|discriminate].
  destruct (add_counts _ entries) as [fam|e] eqn:Hfam; [|discriminate].
  intros [= <-]. exact (counts_family_observations _ _ _ _ _ Hfam).
Qed.

(** The stats loop yields, entry by entry, what [stat_observation] says. *)
Lemma stats_families_observations (items : list (string * json)) :
  observations (stats_families items) = flat_map stat_observation items.
Proof.
  induction items as [|[key value] rest IH]; simpl; [reflexivity|].
  unfold stat_observation at 1. simpl.
  destruct (is_int_or_float value); simpl; now rewrite IH.
Qed.

Lemma stat_observations_unlabeled (items : list (string * json)) :
  Forall (fun o => label_count o = 0%nat) (flat_map stat_observation items).
Proof.
  induction items as [|[key value] rest IH]; simpl; [constructor|].
  unfold stat_observation at 1. simpl.
  destruct (is_int_or_float value); simpl; [constructor; [reflexivity|]|];
    exact IH.
Qed.


Lemma filter_none {A : Type} (p : A -> bool) (l : list A) :
  Forall (fun a => p a = false) l -> filter p l = [].
Proof.
  induction 1 as [|a l Ha _ IH]; simpl; [reflexivity|]. now rewrite Ha.
Qed.



Lemma one_label_not_torrent (l : list observation) :
  Forall (fun o => label_count o = 1%nat) l ->
  Forall (fun o => is_torrent_observation o = false) l.
Proof.
  apply Forall_impl. intros [[name labels] value].
  unfold is_torrent_observation. simpl.
  destruct labels as [|a [|b labels]]; try discriminate; reflexivity.
Qed.


Lemma no_label_not_torrent (l : list observation) :
  Forall (fun o => label_count o = 0%nat) l ->
  Forall (fun o => is_torrent_observation o = false) l.
Proof.
  apply Forall_impl. intros [[name labels] value].
  unfold is_torrent_observation. simpl.
  destruct labels; try discriminate; reflexivity.
Qed.







(** ** Incomplete torrent records *)

(** The rows of lines 155-163 can be built only from a record that has the
    three identifying fields and every counter. *)
Lemma append_stats_fields (torrent : json) (kfs : list (string * string)) :
  forall res res',
    append_stats torrent res kfs = Ok res' ->
    Forall (fun kf =>
              forall k, In k ["name"; "state"; "tracker_host"; snd kf] ->
                        exists v, getitem_str torrent k = Ok v)
           kfs.
Proof.
  induction kfs as [|kf rest IH]; intros res res'; simpl; [constructor|].
  unfold rbind at 1. unfold append_stat, rbind.
  destruct (getitem_str torrent "name") as [name|e] eqn:Hn; [|discriminate].
  destruct (getitem_str torrent "state") as [state|e] eqn:Hs; [|discriminate].
  destruct (getitem_str torrent "tracker_host") as [th|e] eqn:Ht; [|discriminate].
  destruct (getitem_str torrent (snd kf)) as [value|e] eqn:Hv; [|discriminate].
  intros H. constructor; [|exact (IH _ _ H)].
  intros k [<-|[<-|[<-|[<-|[]]]]]; eauto.
Qed.

Lemma process_torrent_complete (torrent : json) (res res' : res_dict)
  (torrent' : json) :
  process_torrent torrent res = (Ok res', torrent') ->
  complete torrent = true.
Proof.
  unfold process_torrent, rbind.
  destruct torrent as [| | | | | |kvs]; try discriminate.
  unfold getitem_str at 1.
  destruct (assoc "state" kvs) as [state|] eqn:Hstate; [|discriminate].
  destruct (py_lower state) as [state'|e]; [|discriminate].
  cbn [setitem_str]. intros Hrun.
  pose proof (f_equal fst Hrun) as Hrows. cbn [fst] in Hrows. clear Hrun.
  pose proof (append_stats_fields _ _ _ _ Hrows) as Hfields.
  unfold complete. apply forallb_forall. intros k Hk.
  assert (Hhas : exists v, getitem_str (JObj (assoc_set "state" state' kvs)) k
                           = Ok v).
  { unfold torrent_fields in Hk. apply in_app_or in Hk as [Hk|Hk].
    - inversion Hfields as [|kf kfs Hkf _]; subst.
      apply Hkf. simpl in *. tauto.
    - apply in_map_iff in Hk as (kf & <- & Hkf).
      rewrite Forall_forall in Hfields. apply (Hfields kf Hkf). simpl. tauto. }
  destruct Hhas as [v Hv]. simpl in Hv |- *.
  destruct (String.eqb_spec k "state") as [->|Hne].
  - now rewrite Hstate.
  - rewrite assoc_set_other in Hv by exact Hne.
    now destruct (assoc k kvs).
Qed.

Lemma process_values_complete (torrents : list (string * json)) :
  forall res res' torrents',
    process_values torrents res = (Ok res', torrents') ->
    Forall (fun kv => complete (snd kv) = true) torrents.
Proof.
  induction torrents as [|[id torrent] rest IH]; intros res res' torrents';
    simpl; [constructor|].
  destruct (process_torrent torrent res) as [[res1|e] torrent1] eqn:Hone;
    [|discriminate].
  destruct (process_values rest res1) as [r rest'] eqn:Hrest.
  intros [= -> _]. constructor.
  - exact (process_torrent_complete _ _ _ _ Hone).
  - exact (IH _ _ _ Hrest).
Qed.

(** One incomplete record makes the whole torrents section raise. *)
Lemma torrents_section_incomplete (deluge_stats : json)
  (torrents : list (string * json)) (id : string) (torrent : json) :
  getitem_str deluge_stats "torrents" = Ok (JObj torrents) ->
  In (id, torrent) torrents ->
  complete torrent = false ->
  exists e, fst (torrents_section deluge_stats) = Raise e.
Proof.
  intros Hget Hin Hincomplete. unfold torrents_section. rewrite Hget.
  unfold process_torrents_stats.
  destruct (process_values torrents res_init) as [[res|e] torrents'] eqn:Hloop.
  - pose proof (process_values_complete _ _ _ _ Hloop) as Hall.
    rewrite Forall_forall in Hall. specialize (Hall _ Hin). simpl in Hall.
    congruence.
  - exists e. reflexivity.
Qed.

Lemma stats_section_observations (deluge_stats : json) (f3 : list family) :
  stats_section deluge_stats = Ok f3 ->
  Forall (fun o => label_count o = 0%nat) (observations f3).
Proof.
  unfold stats_section, rbind.
  destruct (getitem_str deluge_stats "stats") as [stats|e]; [|discriminate].
  destruct (py_items stats) as [items|e]; [|discriminate].
  intros [= <-]. rewrite stats_families_observations.
  apply stat_observations_unlabeled.
Qed.

(** C2, as the code has it.  When a torrent record of the snapshot lacks
    one of the fields the loop reads, the mapping ends with an exception and
    yields no torrent observation at all, for the complete records no more
    than for the incomplete one; what the filter and stats sections yield
    comes out as usual before the exception. *)
Theorem incomplete_torrent_ends_the_mapping (deluge_stats : json)
  (torrents : list (string * json)) (id : string) (torrent : json) :
  getitem_str deluge_stats "torrents" = Ok (JObj torrents) ->
  In (id, torrent) torrents ->
  complete torrent = false ->
  (exists e, snd (fst (map_stats deluge_stats)) = Some e) /\
  filter is_torrent_observation
         (observations (fst (fst (map_stats deluge_stats)))) = [] /\
  (forall f1 f2 f3,
     state_section deluge_stats = Ok f1 ->
     label_section deluge_stats = Ok f2 ->
     stats_section deluge_stats = Ok f3 ->
     fst (fst (map_stats deluge_stats)) = f1 ++ f2 ++ f3).
Proof.
  intros Hget Hin Hincomplete.
  destruct (torrents_section_incomplete _ _ _ _ Hget Hin Hincomplete)
    as [e He].
  unfold map_stats.
  destruct (state_section deluge_stats) as [f1|e1] eqn:H1.
  2:{ split; [eexists; reflexivity|]. split; [reflexivity|]. discriminate. }
  pose proof (one_label_not_torrent _ (state_section_observations _ _ H1)) as N1.
  destruct (label_section deluge_stats) as [f2|e2] eqn:H2.
  2:{ split; [eexists; reflexivity|]. split; [|discriminate]. simpl.
      exact (filter_none _ _ N1). }
  pose proof (one_label_not_torrent _ (label_section_observations _ _ H2)) as N2.
  destruct (stats_section deluge_stats) as [f3|e3] eqn:H3.
  2:{ split; [eexists; reflexivity|]. split; [|discriminate]. simpl.
      rewrite observations_app, filter_app.
      now rewrite (filter_none _ _ N1), (filter_none _ _ N2). }
  pose proof (no_label_not_torrent _ (stats_section_observations _ _ H3)) as N3.
  destruct (torrents_section deluge_stats) as [[f4|e4] after];
    simpl in He; [discriminate|].
  split; [eexists; reflexivity|]. split.
  - simpl. rewrite !observations_app, !filter_app.
    now rewrite (filter_none _ _ N1), (filter_none _ _ N2), (filter_none _ _ N3).
  - intros g1 g2 g3 [= <-] [= <-] [= <-]. reflexivity.
Qed.

(** ** The scrape and the start-up *)

(** C3, as the code has it.  The [try] of [collect] covers the call of
    [get_deluge_stats] and nothing else: an exception of that call is
    logged and the scrape yields nothing and ends normally; when the call
    returns a snapshot the scrape is the mapping of that snapshot, exception
    included. *)
Theorem collect_catches_session_errors
  (server : list request -> post_result) (self : DelugeCollector)
  (w w' : world) (r : result json) :
  get_deluge_stats server self w = (r, w') ->
  match r with
  | Raise e =>
      collect server self w
      = (([], None), mkWorld (sent w') (logged w' ++ [(ERROR, LogExn e)]))
  | Ok deluge_stats =>
      collect server self w = (fst (map_stats deluge_stats), w')
  end.
Proof.
  intros Hrun. unfold collect. rewrite Hrun. now destruct r.
Qed.

(** C9.  The constructor runs [get_deluge_stats] once and passes on its
    exception; [main] does not catch it, so a failing first call ends the
    process before the collector is registered and before the metrics
    server listens, while [collect] in the same state logs the same
    exception and yields nothing. *)
Theorem startup_failure_is_fatal
  (server : list request -> post_result) (environ : list (string * string))
  (basicConfig : string -> result unit) (py_int : string -> result Z)
  (start_http_server : Z -> string -> result unit)
  (deluge_url deluge_password : string) (exporter_port : Z)
  (e : exn) (w' : world) :
  basicConfig (match getenv "LOG_LEVEL" environ with
               | Some l => l
               | None => "INFO"
               end) = Ok tt ->
  getenv "DELUGE_URL" environ = Some deluge_url ->
  getenv "DELUGE_PASSWORD" environ = Some deluge_password ->
  match getenv "LISTEN_PORT" environ with
  | Some p => py_int p
  | None => Ok 8011%Z
  end = Ok exporter_port ->
  get_deluge_stats server (mkCollector (api_url deluge_url) deluge_password)
                   started = (Raise e, w') ->
  (forall w,
     init server deluge_url deluge_password w
     = match get_deluge_stats
               server (mkCollector (api_url deluge_url) deluge_password) w with
       | (Ok _, w1) =>
           (Ok (mkCollector (api_url deluge_url) deluge_password), w1)
       | (Raise e1, w1) => (Raise e1, w1)
       end) /\
  init server deluge_url deluge_password started = (Raise e, w') /\
  main server environ basicConfig py_int start_http_server
  = (Uncaught e, mkProcess w' [] None) /\
  collect server (mkCollector (api_url deluge_url) deluge_password) started
  = (([], None), mkWorld (sent w') (logged w' ++ [(ERROR, LogExn e)])).
Proof.
  intros Hlog Hurl Hpw Hport Hstats.
  assert (Hinit : init server deluge_url deluge_password started = (Raise e, w')).
  { unfold init, bind. now rewrite Hstats. }
  split.
  { intros w. unfold init, bind, ret.
    now destruct (get_deluge_stats _ _ w) as [[d|e1] w1]. }
  split; [exact Hinit|]. split.
  - unfold main. rewrite Hlog, Hurl, Hpw, Hport, Hinit. reflexivity.
  - unfold collect. now rewrite Hstats.
Qed.

(** * Further properties of the code *)

(** ** What one call of the session manager posts and returns *)

Section SessionRuns.

Variable server : list request -> post_result.
Variable self : DelugeCollector.

(** A status query returns what the upstream answered to it: a 200 whose
    JSON body has the returned value as its [result]. *)
Lemma get_webui_data_returns (w w' : world) (data : json) :
  get_webui_data server self w = (Ok data, w') ->
  exists r j,
    server (sent w ++ [update_ui_request self]) = PostReturns r /\
    status_code r = 200%Z /\ body r = Some j /\
    getitem_str j "result" = Ok data /\
    w' = mkWorld (sent w ++ [update_ui_request self]) (logged w).
Proof.
  intros Hrun. pose proof (get_webui_data_world _ _ _ _ _ Hrun) as Hw'.
  revert Hrun.
  unfold get_webui_data, bind, session_post, lift, raise.
  fold (update_ui_request self).
  destruct (server _) as [r|what]; [|discriminate].
  destruct (status_code r =? 200)%Z eqn:Hcode; cbn [negb]; [|discriminate].
  unfold json_of. destruct (body r) as [j|] eqn:Hbody; [|discriminate].
  destruct (getitem_str j "result") as [d|e] eqn:Hres; [|discriminate].
  intros Hrun. exists r, j. apply Z.eqb_eq in Hcode.
  repeat split; try assumption; congruence.
Qed.

(** The login posts exactly one request, whatever comes of it. *)
Lemma get_login_sent (w w' : world) (r : result unit) :
  get_login server self w = (r, w') ->
  sent w' = sent w ++ [login_request self].
Proof.
  unfold get_login, bind, logging_info, session_post, lift, ret, raise.
  fold (login_request self).
  repeat run_step;
    cbv beta iota zeta; intros H; injection H as <- <-; reflexivity.
Qed.

(** The connect recovery posts [web.get_hosts] and, when it gets as far,
    [web.connect]; it returns only after both. *)
Lemma get_connection_sent (w w' : world) (r : result unit) :
  get_connection server self w = (r, w') ->
  (sent w' = sent w ++ [get_hosts_request self] /\ r <> Ok tt) \/
  exists server_id,
    sent w' = sent w ++ [get_hosts_request self; connect_request self server_id].
Proof.
  unfold get_connection, bind, logging_info, session_post, lift, ret, raise.
  fold (get_hosts_request self).
  repeat run_step;
    cbv beta iota zeta; intros H; injection H as <- <-; cbn [sent];
    first [ left; split; [reflexivity|discriminate]
          | right; eexists; rewrite <- app_assoc; reflexivity ].
Qed.

Lemma status_after_login_sent (w w1 : world) (r : result json) :
  status_after_login server self w = (r, w1) ->
  sent w1 = sent w ++ [update_ui_request self] \/
  (sent w1 = sent w ++ [update_ui_request self; login_request self] /\
   exists e, r = Raise e) \/
  sent w1 = sent w ++ [update_ui_request self; login_request self;
                       update_ui_request self].
Proof.
  unfold status_after_login, bind.
  destruct (get_webui_data server self w) as [[data|e] w0] eqn:H0;
    pose proof (get_webui_data_world _ _ _ _ _ H0) as ->.
  2:{ intros [= <- <-]. now left. }
  destruct (is_None data).
  - destruct (get_login server self _) as [[[]|e] w2] eqn:H2;
      pose proof (get_login_sent _ _ _ H2) as Hs2; cbn [sent] in Hs2.
    + intros H3. pose proof (get_webui_data_world _ _ _ _ _ H3) as ->.
      right. right. cbn [sent]. rewrite Hs2, <- !app_assoc. reflexivity.
    + intros [= <- <-]. right. left. split; [|eauto].
      rewrite Hs2, <- app_assoc. reflexivity.
  - intros [= <- <-]. now left.
Qed.

(** The requests of one call, in order. *)
Lemma get_deluge_stats_requests (w w' : world) (r : result json) :
  get_deluge_stats server self w = (r, w') ->
  exists new, sent w' = sent w ++ new /\ session_requests self new.
Proof.
  rewrite get_deluge_stats_unfold. unfold bind at 1.
  destruct (status_after_login server self w) as [[data|e] w1] eqn:H1;
    pose proof (status_after_login_sent _ _ _ H1) as Hs1.
  2:{ intros [= <- <-].
      destruct Hs1 as [Hs|[[Hs _]|Hs]]; rewrite Hs; eexists;
        (split; [reflexivity|]); exists []; (split; [now left|]); auto. }
  intros Hrun.
  assert (Hpost : exists post, sent w' = sent w1 ++ post /\
                               connect_requests self post).
  { revert Hrun. unfold bind, lift, ret, raise.
    destruct (getitem_str data "connected") as [c|e].
    2:{ intros [= <- <-]. exists []. rewrite app_nil_r. split; [auto|now left]. }
    destruct (negb (truthy c)).
    - destruct (get_connection server self w1) as [[[]|e] w2] eqn:H2;
        pose proof (get_connection_sent _ _ _ H2) as Hs2.
      + destruct Hs2 as [[_ Hne]|[id Hs2]]; [congruence|].
        destruct (get_webui_data server self w2) as [[d3|e] w3] eqn:H3;
          pose proof (get_webui_data_world _ _ _ _ _ H3) as ->.
        * intros Hend.
          assert (Hw' : sent w' = sent w2 ++ [update_ui_request self]).
          { revert Hend. destruct (is_None d3).
            - now intros [= <- <-].
            - destruct (getitem_str d3 "connected") as [c3|e];
                [destruct (negb (truthy c3))|]; now intros [= <- <-]. }
          exists [get_hosts_request self; connect_request self id;
                  update_ui_request self].
          split; [rewrite Hw', Hs2, <- app_assoc; reflexivity|].
          right. right. exists id. now right.
        * intros [= <- <-]. cbn [sent].
          exists [get_hosts_request self; connect_request self id;
                  update_ui_request self].
          split; [rewrite Hs2, <- app_assoc; reflexivity|].
          right. right. exists id. now right.
      + intros [= <- <-].
        destruct Hs2 as [[Hs2 _]|[id Hs2]]; rewrite Hs2; eexists;
          (split; [reflexivity|]).
        * right. now left.
        * right. right. exists id. now left.
    - intros Hend. exists []. rewrite app_nil_r. split; [|now left].
      revert Hend. destruct (is_None data).
      + now intros [= <- <-].
      + destruct (getitem_str data "connected") as [c1|e];
          [destruct (negb (truthy c1))|]; now intros [= <- <-]. }
  destruct Hpost as (post & Hw' & Hpost). clear Hrun.
  destruct Hs1 as [Hs|[[_ [e He]]|Hs]]; [| discriminate He |];
    rewrite Hw', Hs, <- app_assoc; eexists; (split; [reflexivity|]);
    exists post; (split; [exact Hpost|]); cbn [app]; auto.
Qed.

End SessionRuns.

Section SessionSteps.

Variable server : list request -> post_result.
Variable self : DelugeCollector.

(** A status query that is answered returns the answer. *)
Lemma get_webui_data_answered (w : world) (data : json) :
  answers server (sent w ++ [update_ui_request self]) data ->
  get_webui_data server self w
  = (Ok data, mkWorld (sent w ++ [update_ui_request self]) (logged w)).
Proof.
  intros (txt & j & Hpost & Hres).
  unfold get_webui_data, bind, session_post, lift, raise.
  fold (update_ui_request self). rewrite Hpost.
  cbn [status_code text json_of body Z.eqb Pos.eqb negb]. now rewrite Hres.
Qed.

(** The state after a successful [get_login]. *)
Lemma get_login_answered (w : world) (res : json) :
  answers server (sent w ++ [login_request self]) res ->
  truthy res = true ->
  get_login server self w
  = (Ok tt,
     mkWorld (sent w ++ [login_request self])
             (logged w ++ [(INFO, LogStr "Loging in Deluge Web UI...");
                           (INFO, LogStr "Loging successful!")])).
Proof.
  intros (txt & j & Hpost & Hres) Htrue.
  unfold get_login, bind, logging_info, session_post, lift, raise.
  fold (login_request self). cbv beta iota zeta. cbn [sent logged].
  rewrite Hpost. cbn [status_code text json_of body Z.eqb Pos.eqb negb].
  rewrite Hres, Htrue. cbn [negb sent logged]. now rewrite <- app_assoc.
Qed.

(** Whatever [get_deluge_stats] returns was returned by a status query. *)
Lemma get_deluge_stats_returns_a_status (w w' : world) (data : json) :
  get_deluge_stats server self w = (Ok data, w') ->
  exists w0, get_webui_data server self w0 = (Ok data, w').
Proof.
  unfold get_deluge_stats, bind, lift, ret, raise.
  destruct (get_webui_data server self w) as [[d1|e] w1] eqn:H1; [|discriminate].
  destruct (is_None d1).
  - destruct (get_login server self w1) as [[[]|e] w2]; [|discriminate].
    destruct (get_webui_data server self w2) as [[d2|e] w3] eqn:H2;
      [|discriminate].
    destruct (getitem_str d2 "connected") as [c2|e]; [|discriminate].
    destruct (negb (truthy c2)).
    + destruct (get_connection server self w3) as [[[]|e] w4]; [|discriminate].
      destruct (get_webui_data server self w4) as [[d3|e] w5] eqn:H3;
        [|discriminate].
      destruct (is_None d3); [discriminate|].
      destruct (getitem_str d3 "connected") as [c3|e]; [|discriminate].
      destruct (negb (truthy c3)); [discriminate|].
      intros [= <- <-]. now exists w4.
    + destruct (is_None d2); [discriminate|].
      destruct (getitem_str d2 "connected") as [c2'|e]; [|discriminate].
      destruct (negb (truthy c2')); [discriminate|].
      intros [= <- <-]. now exists w2.
  - destruct (getitem_str d1 "connected") as [c1|e]; [|discriminate].
    destruct (negb (truthy c1)).
    + destruct (get_connection server self w1) as [[[]|e] w4]; [|discriminate].
      destruct (get_webui_data server self w4) as [[d3|e] w5] eqn:H3;
        [|discriminate].
      destruct (is_None d3); [discriminate|].
      destruct (getitem_str d3 "connected") as [c3|e]; [|discriminate].
      destruct (negb (truthy c3)); [discriminate|].
      intros [= <- <-]. now exists w4.
    + destruct (is_None d1); [discriminate|].
      destruct (getitem_str d1 "connected") as [c1'|e]; [|discriminate].
      destruct (negb (truthy c1')); [discriminate|].
      intros [= <- <-]. now exists w.
Qed.

End SessionSteps.

(** X1.  A snapshot returned by [get_deluge_stats] is connected, and it is
    the upstream's answer to the last request the call posted, which is a
    status query: nothing is returned from an earlier answer. *)
Theorem returned_snapshot_is_connected_and_fresh
  (server : list request -> post_result) (self : DelugeCollector)
  (w w' : world) (data : json) :
  get_deluge_stats server self w = (Ok data, w') ->
  (exists connected,
     getitem_str data "connected" = Ok connected /\ truthy connected = true) /\
  (exists before, sent w' = before ++ [update_ui_request self]) /\
  answers server (sent w') data.
Proof.
  intros Hrun. split; [exact (get_deluge_stats_connected _ _ _ _ _ Hrun)|].
  destruct (get_deluge_stats_returns_a_status _ _ _ _ _ Hrun) as [w0 Hlast].
  destruct (get_webui_data_returns _ _ _ _ _ Hlast)
    as (r & j & Hpost & Hcode & Hbody & Hres & ->).
  cbn [sent]. split; [now exists (sent w0)|].
  exists (text r), j. split; [|exact Hres].
  rewrite Hpost. destruct r as [code txt b]. simpl in *. now subst.
Qed.

(** X1 on an upstream that is connected from the start. *)
Lemma returned_snapshot_is_connected_and_fresh_witness :
  (exists connected,
     getitem_str (a_snapshot []) "connected" = Ok connected /\
     truthy connected = true) /\
  (exists before,
     sent (mkWorld [update_ui_request a_collector] [])
     = before ++ [update_ui_request a_collector]) /\
  answers (scripted [ok200 (a_snapshot [])])
          (sent (mkWorld [update_ui_request a_collector] [])) (a_snapshot []).
Proof.
  exact (returned_snapshot_is_connected_and_fresh
           (scripted [ok200 (a_snapshot [])]) a_collector world0
           (mkWorld [update_ui_request a_collector] []) (a_snapshot [])
           eq_refl).
Defined.

(** X2.  One scrape posts between one and six requests, in this order: a
    status query; if it answered null, the login and, when the login
    succeeds, a second status query; then, if the status says disconnected,
    [web.get_hosts], [web.connect] and a last status query, as far as the
    connect recovery gets.  The mapping posts nothing. *)
Theorem scrape_requests
  (server : list request -> post_result) (self : DelugeCollector) (w : world) :
  exists new,
    sent (snd (collect server self w)) = sent w ++ new /\
    session_requests self new /\
    (1 <= List.length new <= 6)%nat.
Proof.
  unfold collect.
  destruct (get_deluge_stats server self w) as [r w'] eqn:Hrun.
  destruct (get_deluge_stats_requests _ _ _ _ _ Hrun) as (new & Hsent & Hshape).
  exists new. split; [now destruct r|]. split; [exact Hshape|].
  destruct Hshape as (post & Hpost & Hnew).
  assert (Hlen : (List.length post <= 3)%nat).
  { destruct Hpost as [->|[->|[id [->| ->]]]]; simpl; lia. }
  destruct Hnew as [->|[->| ->]]; simpl; lia.
Qed.

(** X3.  When the first status query answers a snapshot whose [connected]
    is true, the call returns it at once: one request, no login, no connect,
    nothing logged. *)
Theorem connected_status_needs_no_recovery
  (server : list request -> post_result) (self : DelugeCollector)
  (w : world) (data connected : json) :
  answers server (sent w ++ [update_ui_request self]) data ->
  getitem_str data "connected" = Ok connected ->
  truthy connected = true ->
  get_deluge_stats server self w
  = (Ok data, mkWorld (sent w ++ [update_ui_request self]) (logged w)).
Proof.
  intros Hanswer Hc Htrue. unfold get_deluge_stats, bind.
  rewrite (get_webui_data_answered _ _ _ _ Hanswer).
  assert (Hnone : is_None data = false) by (now destruct data).
  rewrite Hnone. unfold ret, lift. rewrite Hc, Htrue. cbn [negb].
  now rewrite Hnone, Hc, Htrue.
Qed.

(** X3 on a connected upstream. *)
Lemma connected_status_needs_no_recovery_witness :
  get_deluge_stats (scripted [ok200 (a_snapshot [])]) a_collector world0
  = (Ok (a_snapshot []),
     mkWorld (sent world0 ++ [update_ui_request a_collector]) (logged world0)).
Proof.
  apply (connected_status_needs_no_recovery
           (scripted [ok200 (a_snapshot [])]) a_collector world0
           (a_snapshot []) (JBool true)).
  - exists "", (JObj [("result", a_snapshot [])]). split; reflexivity.
  - reflexivity.
  - reflexivity.
Defined.

(** X4.  When the first status query cannot be completed, because
    [session.post] raises or because the answer is not a 200, the scrape
    attempts no recovery: it has posted that one request, logs the
    exception and yields nothing. *)
Theorem failed_status_query_ends_the_scrape
  (server : list request -> post_result) (self : DelugeCollector) (w : world) :
  match server (sent w ++ [update_ui_request self]) with
  | PostRaises what =>
      collect server self w
      = (([], None),
         mkWorld (sent w ++ [update_ui_request self])
                 (logged w ++ [(ERROR, LogExn (RequestException what))]))
  | PostReturns r =>
      status_code r <> 200%Z ->
      collect server self w
      = (([], None),
         mkWorld (sent w ++ [update_ui_request self])
                 (logged w
                    ++ [(ERROR,
                         LogExn (GetStatsBadHTTP (status_code r) (text r)))]))
  end.
Proof.
  assert (Hfails : forall e w1,
             get_webui_data server self w = (Raise e, w1) ->
             collect server self w
             = (([], None), mkWorld (sent w1) (logged w1 ++ [(ERROR, LogExn e)]))).
  { intros e w1 Hq. unfold collect, get_deluge_stats, bind. now rewrite Hq. }
  destruct (server _) as [r|what] eqn:Hpost.
  - intros Hcode. apply Z.eqb_neq in Hcode.
    rewrite (Hfails (GetStatsBadHTTP (status_code r) (text r))
                    (mkWorld (sent w ++ [update_ui_request self]) (logged w)));
      [reflexivity|].
    unfold get_webui_data, bind, session_post, raise.
    fold (update_ui_request self). now rewrite Hpost, Hcode.
  - rewrite (Hfails (RequestException what)
                    (mkWorld (sent w ++ [update_ui_request self]) (logged w)));
      [reflexivity|].
    unfold get_webui_data, bind, session_post.
    fold (update_ui_request self). now rewrite Hpost.
Qed.

(** X5.  The whole recovery.  On a session that is neither logged in nor
    connected, with an upstream that accepts the password, lists a host and
    accepts the connect, one call posts status, login, status, get_hosts,
    connect (with the first host's id) and status, logs the four progress
    records and returns the last status. *)
Theorem full_recovery
  (server : list request -> post_result) (self : DelugeCollector) (w : world)
  (logged_in disconnected connected_flag server_id connect_ok snapshot
     still_connected : json)
  (host hosts : list json) :
  answers server (sent w ++ [update_ui_request self]) JNull ->
  answers server (sent w ++ [update_ui_request self; login_request self])
          logged_in ->
  truthy logged_in = true ->
  answers server
          (sent w ++ [update_ui_request self; login_request self;
                      update_ui_request self])
          disconnected ->
  getitem_str disconnected "connected" = Ok connected_flag ->
  truthy connected_flag = false ->
  answers server
          (sent w ++ [update_ui_request self; login_request self;
                      update_ui_request self; get_hosts_request self])
          (JArr (JArr (server_id :: host) :: hosts)) ->
  answers server
          (sent w ++ [update_ui_request self; login_request self;
                      update_ui_request self; get_hosts_request self;
                      connect_request self server_id])
          connect_ok ->
  truthy connect_ok = true ->
  answers server
          (sent w ++ [update_ui_request self; login_request self;
                      update_ui_request self; get_hosts_request self;
                      connect_request self server_id; update_ui_request self])
          snapshot ->
  getitem_str snapshot "connected" = Ok still_connected ->
  truthy still_connected = true ->
  get_deluge_stats server self w
  = (Ok snapshot,
     mkWorld (sent w ++ [update_ui_request self; login_request self;
                         update_ui_request self; get_hosts_request self;
                         connect_request self server_id;
                         update_ui_request self])
             (logged w ++ [(INFO, LogStr "Loging in Deluge Web UI...");
                           (INFO, LogStr "Loging successful!");
                           (INFO, LogStr "Connecting Deluge Web UI...");
                           (INFO, LogStr "Connected successful!")])).
Proof.
  intros A1 A2 T2 A3 C3 F3 A4 A5 T5 A6 C6 T6.
  assert (Hfirst : status_after_login server self w
                   = (Ok disconnected,
                      mkWorld (sent w ++ [update_ui_request self;
                                          login_request self;
                                          update_ui_request self])
                              (logged w
                                 ++ [(INFO, LogStr "Loging in Deluge Web UI...");
                                     (INFO, LogStr "Loging successful!")]))).
  { unfold status_after_login, bind.
    rewrite (get_webui_data_answered _ _ _ _ A1). cbn [is_None].
    rewrite (get_login_answered server self _ logged_in);
      cbn [sent logged]; rewrite <- ?app_assoc; cbn [app]; trivial.
    rewrite (get_webui_data_answered server self _ disconnected);
      cbn [sent logged]; rewrite <- ?app_assoc; cbn [app]; trivial. }
  rewrite (get_deluge_stats_disconnected _ _ _ _ _ _ Hfirst C3 F3).
  destruct A4 as (t4 & j4 & P4 & R4). destruct A5 as (t5 & j5 & P5 & R5).
  rewrite (get_connection_first_host server self _ t4 j4 server_id host hosts);
    cbn [sent logged]; rewrite <- ?app_assoc; cbn [app]; trivial.
  rewrite P5. cbn [status_code text json_of body Z.eqb Pos.eqb negb].
  rewrite R5, T5. cbn [negb].
  rewrite (get_webui_data_answered server self _ snapshot);
    unfold connect_done, connect_asked; cbn [sent logged];
    rewrite <- ?app_assoc; cbn [app]; trivial.
  unfold check_status, rbind.
  assert (Hnone : is_None snapshot = false) by (now destruct snapshot).
  rewrite Hnone, C6, T6. reflexivity.
Qed.

(** X5 on a scripted upstream. *)
Lemma full_recovery_witness :
  get_deluge_stats
    (scripted [ok200 JNull; ok200 (JBool true);
               ok200 (JObj [("connected", JBool false)]);
               ok200 (JArr [JArr [JStr "host-1"; JStr "127.0.0.1"]]);
               ok200 (JBool true); ok200 (a_snapshot [])])
    a_collector world0
  = (Ok (a_snapshot []),
     mkWorld (sent world0
                ++ [update_ui_request a_collector; login_request a_collector;
                    update_ui_request a_collector;
                    get_hosts_request a_collector;
                    connect_request a_collector (JStr "host-1");
                    update_ui_request a_collector])
             (logged world0
                ++ [(INFO, LogStr "Loging in Deluge Web UI...");
                    (INFO, LogStr "Loging successful!");
                    (INFO, LogStr "Connecting Deluge Web UI...");
                    (INFO, LogStr "Connected successful!")])).
Proof.
  apply (full_recovery _ a_collector world0
           (JBool true) (JObj [("connected", JBool false)]) (JBool false)
           (JStr "host-1") (JBool true) (a_snapshot []) (JBool true)
           [JStr "127.0.0.1"] []);
    try reflexivity;
    eexists "", (JObj [("result", _)]); split; reflexivity.
Defined.

(** X6.  [get_login] returns exactly when the upstream answers the login
    request, which carries the stored password, with a 200 whose [result] is
    true; it has then posted that one request and logged its two progress
    records.  In every other case it raises. *)
Theorem login_returns_iff_accepted
  (server : list request -> post_result) (self : DelugeCollector)
  (w w' : world) :
  get_login server self w = (Ok tt, w') <->
  (exists res,
     answers server (sent w ++ [login_request self]) res /\
     truthy res = true) /\
  w' = mkWorld (sent w ++ [login_request self])
               (logged w ++ [(INFO, LogStr "Loging in Deluge Web UI...");
                             (INFO, LogStr "Loging successful!")]).
Proof.
  split.
  - unfold get_login, bind, logging_info, session_post, lift, ret, raise.
    fold (login_request self). cbv beta iota zeta. cbn [sent logged].
    destruct (server _) as [[code txt b]|what] eqn:Hpost; [|cbv beta iota zeta; discriminate].
    unfold json_of. cbn [status_code text body].
    destruct (code =? 200)%Z eqn:Hcode; cbn [negb]; [|cbv beta iota zeta; discriminate].
    apply Z.eqb_eq in Hcode. subst code.
    destruct b as [j|]; [|cbv beta iota zeta; discriminate].
    cbv beta iota zeta.
    destruct (getitem_str j "result") as [res|e] eqn:Hres; [|cbv beta iota zeta; discriminate].
    destruct (truthy res) eqn:Htrue; cbn [negb]; [|cbv beta iota zeta; discriminate].
    cbv beta iota zeta. intros [= <-]. split.
    + exists res. split; [|exact Htrue]. now exists txt, j.
    + cbn [sent logged]. now rewrite <- app_assoc.
  - intros [(res & Hanswer & Htrue) ->].
    exact (get_login_answered _ _ _ _ Hanswer Htrue).
Qed.

(** X6 on an upstream that accepts the password. *)
Lemma login_returns_iff_accepted_witness :
  get_login (scripted [ok200 (JBool true)]) a_collector world0
  = (Ok tt,
     mkWorld (sent world0 ++ [login_request a_collector])
             (logged world0 ++ [(INFO, LogStr "Loging in Deluge Web UI...");
                                (INFO, LogStr "Loging successful!")])).
Proof.
  apply (proj2 (login_returns_iff_accepted
                  (scripted [ok200 (JBool true)]) a_collector world0 _)).
  split; [|reflexivity].
  exists (JBool true). split; [|reflexivity].
  exists "", (JObj [("result", JBool true)]). split; reflexivity.
Defined.



(** X8.  The terminal check.  When the connect recovery has succeeded and
    the status queried after it is null, or still says disconnected, the
    call raises the "Get stats error!" exception carrying that status, and
    posts nothing more: there is no second recovery. *)
Theorem still_unusable_after_connect
  (server : list request -> post_result) (self : DelugeCollector)
  (w w1 w2 w3 : world) (data connected last : json) :
  status_after_login server self w = (Ok data, w1) ->
  getitem_str data "connected" = Ok connected ->
  truthy connected = false ->
  get_connection server self w1 = (Ok tt, w2) ->
  get_webui_data server self w2 = (Ok last, w3) ->
  (last = JNull \/
   exists flag, getitem_str last "connected" = Ok flag /\ truthy flag = false) ->
  get_deluge_stats server self w = (Raise (GetStatsError last), w3) /\
  is_SessionError (GetStatsError last) = true /\
  sent w3 = sent w2 ++ [update_ui_request self].
Proof.
  intros H0 H1 H2 Hc Hq Hlast.
  rewrite (get_deluge_stats_disconnected _ _ _ _ _ _ H0 H1 H2), Hc, Hq.
  split; [|split; [reflexivity|]].
  - f_equal. unfold check_status, rbind.
    destruct Hlast as [->|(flag & Hflag & Hfalse)]; [reflexivity|].
    assert (Hnone : is_None last = false) by (now destruct last).
    now rewrite Hnone, Hflag, Hfalse.
  - now rewrite (get_webui_data_world _ _ _ _ _ Hq).
Qed.

(** X8 on an upstream that accepts the connect and still reports a
    disconnected session. *)
Lemma still_unusable_after_connect_witness :
  get_deluge_stats
    (scripted [ok200 (JObj [("connected", JBool false)]);
               ok200 (JArr [JArr [JStr "host-1"]]); ok200 (JBool true);
               ok200 (JObj [("connected", JBool false)])])
    a_collector world0
  = (Raise (GetStatsError (JObj [("connected", JBool false)])),
     mkWorld [update_ui_request a_collector; get_hosts_request a_collector;
              connect_request a_collector (JStr "host-1");
              update_ui_request a_collector]
             [(INFO, LogStr "Connecting Deluge Web UI...");
              (INFO, LogStr "Connected successful!")]).
Proof.
  refine (proj1 (still_unusable_after_connect
                   (scripted [ok200 (JObj [("connected", JBool false)]);
                              ok200 (JArr [JArr [JStr "host-1"]]);
                              ok200 (JBool true);
                              ok200 (JObj [("connected", JBool false)])])
                   a_collector world0
                   (mkWorld [update_ui_request a_collector] [])
                   (connect_done a_collector
                      (mkWorld [update_ui_request a_collector] [])
                      (JStr "host-1"))
                   _
                   (JObj [("connected", JBool false)]) (JBool false)
                   (JObj [("connected", JBool false)])
                   eq_refl eq_refl eq_refl eq_refl eq_refl _)).
  right. exists (JBool false). split; reflexivity.
Defined.

(** ** What the mapping yields for well-formed snapshots *)

Lemma add_counts_pairs (pairs : list (string * json)) :
  forall fam,
    add_counts fam (map (fun nc => JArr [JStr (fst nc); snd nc]) pairs)
    = Ok (mkFamily (fam_name fam) (fam_doc fam) (fam_labelnames fam)
                   (fam_samples fam ++ count_samples pairs)).
Proof.
  induction pairs as [|[name count] rest IH]; intros [n d l s]; simpl.
  - now rewrite app_nil_r.
  - rewrite IH. simpl. now rewrite <- app_assoc.
Qed.

(** X9.  For a [state] filter that is a list of [[name, count]] pairs the
    first family yielded is [deluge_torrent_state_count], with one sample
    per pair, in order: the lower-cased name as the [state] label and the
    count as the value.  An empty list gives the family without samples. *)
Theorem state_counts_are_observed (deluge_stats filters : json)
  (pairs : list (string * json)) :
  getitem_str deluge_stats "filters" = Ok filters ->
  getitem_str filters "state" = Ok (count_entries pairs) ->
  state_section deluge_stats
  = Ok [mkFamily "deluge_torrent_state_count" "Number of torrents by state"
                 ["state"] (count_samples pairs)]
  /\ observations
       [mkFamily "deluge_torrent_state_count" "Number of torrents by state"
                 ["state"] (count_samples pairs)]
     = map (fun nc => ("deluge_torrent_state_count",
                       [("state", JStr (lower (fst nc)))], snd nc))
           pairs.
Proof.
  intros Hf Hs. split.
  - unfold state_section, rbind. rewrite Hf, Hs. unfold count_entries.
    cbn [py_iter]. now rewrite add_counts_pairs.
  - unfold observations, family_observations, count_samples. simpl.
    rewrite app_nil_r, map_map. reflexivity.
Qed.

(** X10.  The [label] filter is optional.  When [filters] has no [label]
    member the second family, [deluge_torrent_label_count], is yielded
    without samples and nothing is raised; when it has one that is a list
    of [[name, count]] pairs the family has one sample per pair, labelled
    with the lower-cased name. *)
Theorem label_counts_are_optional (deluge_stats : json)
  (filters : list (string * json)) :
  getitem_str deluge_stats "filters" = Ok (JObj filters) ->
  (assoc "label" filters = None ->
   label_section deluge_stats
   = Ok [mkFamily "deluge_torrent_label_count" "Number of torrents by label"
                  ["label"] []]) /\
  (forall pairs,
     assoc "label" filters = Some (count_entries pairs) ->
     label_section deluge_stats
     = Ok [mkFamily "deluge_torrent_label_count" "Number of torrents by label"
                    ["label"] (count_samples pairs)]).
Proof.
  intros Hf. split.
  - intros Hnone. unfold label_section, rbind, py_get. now rewrite Hf, Hnone.
  - intros pairs Hsome. unfold label_section, rbind, py_get.
    rewrite Hf, Hsome. unfold count_entries. cbn [py_iter].
    now rewrite add_counts_pairs.
Qed.






Lemma row_families_observations (key : string) (rows : list torrent_row) :
  observations (map (row_family key) rows) = map (row_observation key) rows.
Proof.
  induction rows as [|[[[name state] tracker_host] value] rows IH];
    [reflexivity|].
  unfold observations in *. cbn [map flat_map]. rewrite IH. reflexivity.
Qed.

Lemma torrents_families_rows (res : res_dict) :
  observations (torrents_families res)
  = flat_map (fun kr => map (row_observation (fst kr)) (snd kr)) res.
Proof.
  unfold torrents_families.
  induction res as [|[key rows] rest IH]; [reflexivity|].
  simpl. now rewrite observations_app, row_families_observations, IH.
Qed.


(** ** The snapshot after the mapping *)




(** ** What the torrent loop raises *)

(** X12.  The loop body on a torrent record that is a dict.  Without a
    [state] it raises [KeyError] for [state]; with a [state] that is not a
    string it raises [AttributeError]; in both cases the record is left as
    it is.  With a string [state] the state is lower-cased in the record
    and then, if a field is missing, [KeyError] is raised for the first
    missing one in the order name, tracker_host, total_uploaded,
    total_wanted, total_done, download_payload_rate, upload_payload_rate,
    total_peers, total_seeds, num_peers, num_seeds; otherwise the rows are
    appended. *)
Theorem torrent_loop_errors (kvs : list (string * json)) (res : res_dict) :
  match assoc "state" kvs with
  | None =>
      process_torrent (JObj kvs) res
      = (Raise (KeyError (JStr "state")), JObj kvs)
  | Some (JStr s) =>
      snd (process_torrent (JObj kvs) res)
      = JObj (assoc_set "state" (JStr (lower s)) kvs) /\
      match first_missing (JObj kvs) with
      | Some k =>
          fst (process_torrent (JObj kvs) res) = Raise (KeyError (JStr k))
      | None => exists res', fst (process_torrent (JObj kvs) res) = Ok res'
      end
  | Some _ =>
      process_torrent (JObj kvs) res = (Raise AttributeError, JObj kvs)
  end.
Proof.
  unfold process_torrent, rbind, getitem_str.
  destruct (assoc "state" kvs) as [[| | | |s| |]|] eqn:Hs; try reflexivity.
  cbn [py_lower setitem_str fst snd]. split; [reflexivity|].
  unfold first_missing, fields_after_state, stat_fields.
  cbn [append_stats map app snd find].
  unfold append_stat, rbind, getitem_str. cbn [fst snd].
  rewrite assoc_set_same, !assoc_set_other by discriminate.
  destruct (assoc "name" kvs); [|reflexivity].
  destruct (assoc "tracker_host" kvs); [|reflexivity].
  destruct (assoc "total_uploaded" kvs); [|reflexivity].
  destruct (assoc "total_wanted" kvs); [|reflexivity].
  destruct (assoc "total_done" kvs); [|reflexivity].
  destruct (assoc "download_payload_rate" kvs); [|reflexivity].
  destruct (assoc "upload_payload_rate" kvs); [|reflexivity].
  destruct (assoc "total_peers" kvs); [|reflexivity].
  destruct (assoc "total_seeds" kvs); [|reflexivity].
  destruct (assoc "num_peers" kvs); [|reflexivity].
  destruct (assoc "num_seeds" kvs); [|reflexivity].
  eexists. reflexivity.
Qed.

(** ** Names *)

Lemma add_counts_name (entries : list json) :
  forall fam fam',
    add_counts fam entries = Ok fam' -> fam_name fam' = fam_name fam.
Proof.
  induction entries as [|entry rest IH]; intros fam fam'; simpl.
  - now intros [= <-].
  - unfold rbind.
    destruct (getitem_nat entry 0) as [name|e]; [|discriminate].
    destruct (py_lower name) as [name'|e]; [|discriminate].
    destruct (getitem_nat entry 1) as [count|e]; [|discriminate].
    intros H. now rewrite (IH _ _ H).
Qed.

Lemma deluge_prefix (s : string) : prefix "deluge_" ("deluge_" ++ s) = true.
Proof. simpl. now destruct s. Qed.

Lemma state_section_names (deluge_stats : json) (f1 : list family) :
  state_section deluge_stats = Ok f1 ->
  Forall (fun f => prefix "deluge_" (fam_name f) = true) f1.
Proof.
  unfold state_section, rbind.
  destruct (getitem_str deluge_stats "filters") as [filters|e]; [|discriminate].
  destruct (getitem_str filters "state") as [states|e]; [|discriminate].
  destruct (py_iter states) as [entries|e]; [|discriminate].
  destruct (add_counts _ entries) as [fam|e] eqn:Hfam; [|discriminate].
  intros [= <-]. constructor; [|constructor].
  now rewrite (add_counts_name _ _ _ Hfam).
Qed.

Lemma label_section_names (deluge_stats : json) (f2 : list family) :
  label_section deluge_stats = Ok f2 ->
  Forall (fun f => prefix "deluge_" (fam_name f) = true) f2.
Proof.
  unfold label_section, rbind.
  destruct (getitem_str deluge_stats "filters") as [filters|e]; [|discriminate].
  destruct (py_get filters "label" (JArr [])) as [labels|e]; [|discriminate].
  destruct (py_iter labels) as [entries|e]; [|discriminate].
  destruct (add_counts _ entries) as [fam|e] eqn:Hfam; [|discriminate].
  intros [= <-]. constructor; [|constructor].
  now rewrite (add_counts_name _ _ _ Hfam).
Qed.

Lemma stats_section_names (deluge_stats : json) (f3 : list family) :
  stats_section deluge_stats = Ok f3 ->
  Forall (fun f => prefix "deluge_" (fam_name f) = true) f3.
Proof.
  unfold stats_section, rbind.
  destruct (getitem_str deluge_stats "stats") as [stats|e]; [|discriminate].
  destruct (py_items stats) as [items|e]; [|discriminate].
  intros [= <-].
  induction items as [|[key value] rest IH]; simpl; [constructor|].
  destruct (is_int_or_float value); [|exact IH].
  constructor; [apply deluge_prefix|exact IH].
Qed.

Lemma torrents_section_names (deluge_stats : json) (f4 : list family) :
  fst (torrents_section deluge_stats) = Ok f4 ->
  Forall (fun f => prefix "deluge_" (fam_name f) = true) f4.
Proof.
  unfold torrents_section.
  destruct (getitem_str deluge_stats "torrents") as [torrents|e]; [|discriminate].
  destruct (process_torrents_stats torrents) as [[res|e] torrents'];
    cbn [fst rbind]; [|discriminate].
  intros [= <-]. unfold torrents_families.
  induction res as [|[key rows] rest IH]; simpl; [constructor|].
  apply Forall_app. split; [|exact IH].
  clear IH. induction rows as [|[[[name state] tracker_host] value] rows IH];
    simpl; [constructor|].
  constructor; [apply deluge_prefix|exact IH].
Qed.

(** X13.  Whatever the snapshot, and however the mapping ends, the name of
    every family yielded, and so of every observation, starts with
    "deluge_". *)
Theorem every_metric_name_is_prefixed (deluge_stats : json) :
  Forall (fun f => prefix "deluge_" (fam_name f) = true)
         (fst (fst (map_stats deluge_stats))) /\
  Forall (fun o => prefix "deluge_" (fst (fst o)) = true)
         (observations (fst (fst (map_stats deluge_stats)))).
Proof.
  assert (Hfamilies : Forall (fun f => prefix "deluge_" (fam_name f) = true)
                             (fst (fst (map_stats deluge_stats)))).
  { unfold map_stats.
    destruct (state_section deluge_stats) as [f1|e] eqn:H1; [|constructor].
    pose proof (state_section_names _ _ H1) as N1.
    destruct (label_section deluge_stats) as [f2|e] eqn:H2; [|exact N1].
    pose proof (label_section_names _ _ H2) as N2.
    destruct (stats_section deluge_stats) as [f3|e] eqn:H3;
      [|cbn [fst]; apply Forall_app; now split].
    pose proof (stats_section_names _ _ H3) as N3.
    pose proof (torrents_section_names deluge_stats) as N4.
    destruct (torrents_section deluge_stats) as [[f4|e] after]; cbn [fst] in *.
    - specialize (N4 _ eq_refl). repeat (apply Forall_app; split); assumption.
    - repeat (apply Forall_app; split); assumption. }
  split; [exact Hfamilies|].
  unfold observations. rewrite Forall_forall in *.
  intros o Ho. apply in_flat_map in Ho as (f & Hf & Ho).
  unfold family_observations in Ho. apply in_map_iff in Ho as (s & <- & _).
  exact (Hfamilies f Hf).
Qed.

(** ** Snapshots that lack a member *)

(** X15.  A snapshot dict that lacks [filters] yields nothing and ends with
    [KeyError] for [filters]; one that lacks [stats] yields the two filter
    families and ends with [KeyError] for [stats]; one that lacks
    [torrents] yields the filter and stats families and ends with
    [KeyError] for [torrents].  In each case the snapshot is left as it
    is. *)
Theorem missing_member_ends_the_mapping (kvs : list (string * json)) :
  (assoc "filters" kvs = None ->
   map_stats (JObj kvs) = (([], Some (KeyError (JStr "filters"))), JObj kvs)) /\
  (forall f1 f2,
     state_section (JObj kvs) = Ok f1 ->
     label_section (JObj kvs) = Ok f2 ->
     assoc "stats" kvs = None ->
     map_stats (JObj kvs)
     = ((f1 ++ f2, Some (KeyError (JStr "stats"))), JObj kvs)) /\
  (forall f1 f2 f3,
     state_section (JObj kvs) = Ok f1 ->
     label_section (JObj kvs) = Ok f2 ->
     stats_section (JObj kvs) = Ok f3 ->
     assoc "torrents" kvs = None ->
     map_stats (JObj kvs)
     = ((f1 ++ f2 ++ f3, Some (KeyError (JStr "torrents"))), JObj kvs)).
Proof.
  split; [|split].
  - intros Hnone. unfold map_stats, state_section, rbind, getitem_str.
    now rewrite Hnone.
  - intros f1 f2 H1 H2 Hnone. unfold map_stats. rewrite H1, H2.
    unfold stats_section, rbind, getitem_str. now rewrite Hnone.
  - intros f1 f2 f3 H1 H2 H3 Hnone. unfold map_stats. rewrite H1, H2, H3.
    unfold torrents_section, getitem_str. now rewrite Hnone.
Qed.

(** ** Start-up *)

(** X16.  With the logging configured, a missing [DELUGE_URL] or
    [DELUGE_PASSWORD] ends [main] with exit status 1 after one call of
    [logging.error] with the message naming the variable, the only call of
    the logging functions after the "Starting" one: no request has been
    posted, no collector is registered and the server does not listen. *)
Theorem missing_configuration_exits
  (server : list request -> post_result) (environ : list (string * string))
  (basicConfig : string -> result unit) (py_int : string -> result Z)
  (start_http_server : Z -> string -> result unit) :
  basicConfig (match getenv "LOG_LEVEL" environ with
               | Some l => l
               | None => "INFO"
               end) = Ok tt ->
  getenv "DELUGE_URL" environ = None \/
  getenv "DELUGE_PASSWORD" environ = None ->
  exists variable,
    (variable = "DELUGE_URL" \/ variable = "DELUGE_PASSWORD") /\
    getenv variable environ = None /\
    main server environ basicConfig py_int start_http_server
    = (Exit 1,
       mkProcess
         (mkWorld []
            [(INFO, LogStr "Starting Deluge Prometheus Exporter ...");
             (ERROR,
              LogStr ("Configuration error. The environment variable "
                        ++ variable ++ " is mandatory"))])
         [] None).
Proof.
  intros Hlog Hmissing. unfold main. rewrite Hlog.
  destruct (getenv "DELUGE_URL" environ) as [deluge_url|] eqn:Hurl.
  - destruct Hmissing as [Hnone|Hnone]; [discriminate|]. rewrite Hnone.
    exists "DELUGE_PASSWORD". repeat split; auto.
  - exists "DELUGE_URL". repeat split; auto.
Qed.

(** X17.  The metrics server listens only when [main] has reached its sleep
    loop.  Then both variables were set, one collector is registered, for
    the URL with "json" appended, the constructor's [get_deluge_stats] has
    returned a snapshot whose [connected] is true, and the scrape that
    [REGISTRY.register] runs has ended without an exception.  In every
    other ending the server does not listen, and the collector is
    registered only if it was [start_http_server] that raised. *)
Theorem server_listens_only_after_connected_status
  (server : list request -> post_result) (environ : list (string * string))
  (basicConfig : string -> result unit) (py_int : string -> result Z)
  (start_http_server : Z -> string -> result unit) :
  match main server environ basicConfig py_int start_http_server with
  | (Sleeping, p) =>
      exists deluge_url deluge_password data w1 families w2,
        getenv "DELUGE_URL" environ = Some deluge_url /\
        getenv "DELUGE_PASSWORD" environ = Some deluge_password /\
        registry p = [mkCollector (api_url deluge_url) deluge_password] /\
        listening p <> None /\
        get_deluge_stats server
          (mkCollector (api_url deluge_url) deluge_password) started
        = (Ok data, w1) /\
        (exists flag,
           getitem_str data "connected" = Ok flag /\ truthy flag = true) /\
        collect server (mkCollector (api_url deluge_url) deluge_password) w1
        = ((families, None), w2)
  | (_, p) =>
      listening p = None /\
      (registry p = [] \/
       exists port address e, start_http_server port address = Raise e)
  end.
Proof.
  unfold main.
  destruct (basicConfig _) as [[]|e]; [|now split; [|left]].
  destruct (getenv "DELUGE_URL" environ) as [deluge_url|];
    [|now split; [|left]].
  destruct (getenv "DELUGE_PASSWORD" environ) as [deluge_password|];
    [|now split; [|left]].
  destruct (match getenv "LISTEN_PORT" environ with
            | Some p => py_int p
            | None => Ok 8011%Z
            end) as [exporter_port|e]; [|now split; [|left]].
  unfold init, bind, ret.
  destruct (get_deluge_stats server _ started) as [[data|e] w1] eqn:Hrun;
    [|now split; [|left]].
  unfold register.
  destruct (collect server _ w1) as [[families [e|]] w2] eqn:Hscrape;
    [now split; [|left]|].
  destruct (start_http_server exporter_port _) as [[]|e] eqn:Hbind.
  - exists deluge_url, deluge_password, data, w1, families, w2.
    split; [reflexivity|]. split; [reflexivity|]. split; [reflexivity|].
    split; [discriminate|]. split; [exact Hrun|].
    split; [exact (get_deluge_stats_connected _ _ _ _ _ Hrun)|exact Hscrape].
  - split; [reflexivity|]. right. eauto.
Qed.

(** ** The endpoint *)

Lemma substring_all (s : string) : substring 0 (String.length s) s = s.
Proof. induction s as [|c s IH]; simpl; [reflexivity|now rewrite IH]. Qed.

Lemma substring_suffix (s t : string) :
  substring (String.length s) (String.length t) (s ++ t) = t.
Proof.
  induction s as [|c s IH]; simpl; [apply substring_all|exact IH].
Qed.

Lemma length_append (s t : string) :
  String.length (s ++ t) = (String.length s + String.length t)%nat.
Proof. induction s as [|c s IH]; simpl; [reflexivity|now rewrite IH]. Qed.

Lemma endswith_append (s t : string) : endswith (s ++ t) t = true.
Proof.
  unfold endswith. rewrite length_append.
  replace (String.length s + String.length t - String.length t)%nat
    with (String.length s) by lia.
  rewrite substring_suffix, String.eqb_refl, andb_true_r.
  apply Nat.leb_le. lia.
Qed.

Lemma string_append_assoc (s t u : string) :
  ((s ++ t) ++ u = s ++ (t ++ u))%string.
Proof. induction s as [|c s IH]; simpl; [reflexivity|now rewrite IH]. Qed.

(** X18.  A base URL is given one slash before "json" when it does not end
    with one and none when it does, so a base URL with and without its
    trailing slash give the same endpoint. *)
Theorem api_url_ignores_trailing_slash (deluge_url : string) :
  endswith deluge_url "/" = false ->
  api_url deluge_url = (deluge_url ++ "/json")%string /\
  api_url (deluge_url ++ "/") = api_url deluge_url.
Proof.
  intros Hno. unfold api_url. rewrite Hno, endswith_append.
  split; [apply string_append_assoc|reflexivity].
Qed.

(** X18 on a base URL. *)
Lemma api_url_ignores_trailing_slash_witness :
  api_url "http://deluge:8112" = "http://deluge:8112/json" /\
  api_url "http://deluge:8112/" = api_url "http://deluge:8112".
Proof.
  exact (api_url_ignores_trailing_slash "http://deluge:8112" eq_refl).
Defined.

(** ** Lower-cased labels *)

Lemma lower_is_lower_str (s : string) : is_lower_str (JStr (lower s)) = true.
Proof. simpl. rewrite lower_idempotent. apply String.eqb_refl. Qed.

Lemma add_counts_lower (entries : list json) :
  forall fam fam',
    add_counts fam entries = Ok fam' ->
    fam_labelnames fam' = fam_labelnames fam /\
    exists new,
      fam_samples fam' = fam_samples fam ++ new /\
      Forall (fun s => exists v, sample_labels s = [v] /\ is_lower_str v = true)
             new.
Proof.
  induction entries as [|entry rest IH]; intros fam fam'; simpl.
  - intros [= <-]. split; [reflexivity|]. exists []. now rewrite app_nil_r.
  - unfold rbind.
    destruct (getitem_nat entry 0) as [name|e]; [|discriminate].
    destruct (py_lower name) as [name'|e] eqn:Hlower; [|discriminate].
    destruct (getitem_nat entry 1) as [count|e]; [|discriminate].
    intros H. destruct (IH _ _ H) as (Hnames & new & Hsamples & Hnew).
    split; [exact Hnames|].
    exists (mkSample [name'] count :: new). split.
    + rewrite Hsamples. simpl. now rewrite <- app_assoc.
    + constructor; [|exact Hnew]. exists name'. split; [reflexivity|].
      destruct name; try discriminate. injection Hlower as <-.
      apply lower_is_lower_str.
Qed.

Lemma counts_family_lower (name doc label : string) (entries : list json)
  (fam : family) :
  add_counts (GaugeMetricFamily name doc [label]) entries = Ok fam ->
  Forall (fun o => forall l v, In (l, v) (snd (fst o)) -> is_lower_str v = true)
         (observations [fam]).
Proof.
  intros H. destruct (add_counts_lower _ _ _ H) as (Hnames & new & Hs & Hnew).
  simpl in Hnames, Hs. unfold observations. simpl. rewrite app_nil_r.
  unfold family_observations. rewrite Hnames, Hs.
  apply Forall_map. revert Hnew. apply Forall_impl.
  intros s (v & Hlabels & Hv) l v'. simpl. rewrite Hlabels. simpl.
  intros [[= _ <-]|[]]. exact Hv.
Qed.

Lemma res_append_lower (key : string) (row : torrent_row) (res : res_dict) :
  row_state_lower row = true ->
  Forall (fun kr => Forall (fun r => row_state_lower r = true) (snd kr)) res ->
  Forall (fun kr => Forall (fun r => row_state_lower r = true) (snd kr))
         (res_append key row res).
Proof.
  intros Hrow. induction 1 as [|[k rows] rest Hk Hrest IH]; simpl;
    [constructor|].
  simpl in Hk. destruct (String.eqb key k).
  - constructor; [|exact Hrest]. simpl.
    apply Forall_app. split; [exact Hk|]. now constructor.
  - constructor; [exact Hk|exact IH].
Qed.

Lemma append_stats_lower (torrent state : json) (kfs : list (string * string)) :
  getitem_str torrent "state" = Ok state ->
  is_lower_str state = true ->
  forall res res',
    Forall (fun kr => Forall (fun r => row_state_lower r = true) (snd kr)) res ->
    append_stats torrent res kfs = Ok res' ->
    Forall (fun kr => Forall (fun r => row_state_lower r = true) (snd kr)) res'.
Proof.
  intros Hstate Hlower.
  induction kfs as [|kf rest IH]; intros res res' Hres; simpl.
  - now intros [= <-].
  - unfold rbind at 1. unfold append_stat, rbind. rewrite Hstate.
    destruct (getitem_str torrent "name") as [name|e]; [|discriminate].
    destruct (getitem_str torrent "tracker_host") as [th|e]; [|discriminate].
    destruct (getitem_str torrent (snd kf)) as [value|e]; [|discriminate].
    apply IH. apply res_append_lower; [exact Hlower|exact Hres].
Qed.

Lemma process_torrent_lower (torrent torrent' : json) (res res' : res_dict) :
  Forall (fun kr => Forall (fun r => row_state_lower r = true) (snd kr)) res ->
  process_torrent torrent res = (Ok res', torrent') ->
  Forall (fun kr => Forall (fun r => row_state_lower r = true) (snd kr)) res'.
Proof.
  intros Hres. unfold process_torrent, rbind.
  destruct torrent as [| | | | | |kvs]; try discriminate.
  unfold getitem_str at 1.
  destruct (assoc "state" kvs) as [[| | | |s| |]|]; try discriminate.
  cbn [py_lower setitem_str]. intros Hrun.
  pose proof (f_equal fst Hrun) as Hrows. cbn [fst] in Hrows.
  refine (append_stats_lower _ (JStr (lower s)) _ _ _ _ _ Hres Hrows).
  - simpl. now rewrite assoc_set_same.
  - apply lower_is_lower_str.
Qed.

Lemma process_values_lower (torrents : list (string * json)) :
  forall res res' torrents',
    Forall (fun kr => Forall (fun r => row_state_lower r = true) (snd kr)) res ->
    process_values torrents res = (Ok res', torrents') ->
    Forall (fun kr => Forall (fun r => row_state_lower r = true) (snd kr)) res'.
Proof.
  induction torrents as [|[id torrent] rest IH]; intros res res' torrents' Hres;
    simpl.
  - now intros [= <- _].
  - destruct (process_torrent torrent res) as [[res1|e] torrent1] eqn:Hone;
      [|discriminate].
    destruct (process_values rest res1) as [r rest'] eqn:Hrest.
    intros [= -> _].
    exact (IH _ _ _ (process_torrent_lower _ _ _ _ Hres Hone) Hrest).
Qed.

Lemma torrents_families_lower (res : res_dict) :
  Forall (fun kr => Forall (fun r => row_state_lower r = true) (snd kr)) res ->
  Forall (fun o => forall l v,
              In (l, v) (snd (fst o)) -> l = "state" \/ l = "label" ->
              is_lower_str v = true)
         (observations (torrents_families res)).
Proof.
  rewrite torrents_families_rows.
  induction 1 as [|[key rows] rest Hrows _ IH]; simpl; [constructor|].
  apply Forall_app. split; [|exact IH].
  apply Forall_map. revert Hrows. apply Forall_impl.
  intros [[[name state] tracker_host] value] Hrow l v. simpl.
  intros [[= <- <-]|[[= <- <-]|[[= <- <-]|[]]]] [Hl|Hl];
    try discriminate Hl.
  exact Hrow.
Qed.

(** X14.  Whatever the snapshot, every [state] label and every [label]
    label of an observation the mapping yields is a string that
    lower-casing leaves unchanged. *)
Theorem state_and_label_values_are_lower_case (deluge_stats : json) :
  Forall (fun o => forall l v,
              In (l, v) (snd (fst o)) -> l = "state" \/ l = "label" ->
              is_lower_str v = true)
         (observations (fst (fst (map_stats deluge_stats)))).
Proof.
  assert (Hcounts : forall fs : list observation,
             Forall (fun o => forall l v,
                         In (l, v) (snd (fst o)) -> is_lower_str v = true) fs ->
             Forall (fun o => forall l v,
                         In (l, v) (snd (fst o)) -> l = "state" \/ l = "label" ->
                         is_lower_str v = true) fs).
  { intros fs. apply Forall_impl. intros o Ho l v Hin _. exact (Ho l v Hin). }
  assert (H1 : forall f1, state_section deluge_stats = Ok f1 ->
                          Forall (fun o => forall l v,
                                      In (l, v) (snd (fst o)) ->
                                      is_lower_str v = true)
                                 (observations f1)).
  { unfold state_section, rbind.
    destruct (getitem_str deluge_stats "filters") as [filters|e];
      [|discriminate].
    destruct (getitem_str filters "state") as [states|e]; [|discriminate].
    destruct (py_iter states) as [entries|e]; [|discriminate].
    destruct (add_counts _ entries) as [fam|e] eqn:Hfam; [|discriminate].
    intros f1 [= <-]. exact (counts_family_lower _ _ _ _ _ Hfam). }
  assert (H2 : forall f2, label_section deluge_stats = Ok f2 ->
                          Forall (fun o => forall l v,
                                      In (l, v) (snd (fst o)) ->
                                      is_lower_str v = true)
                                 (observations f2)).
  { unfold label_section, rbind.
    destruct (getitem_str deluge_stats "filters") as [filters|e];
      [|discriminate].
    destruct (py_get filters "label" (JArr [])) as [labels|e]; [|discriminate].
    destruct (py_iter labels) as [entries|e]; [|discriminate].
    destruct (add_counts _ entries) as [fam|e] eqn:Hfam; [|discriminate].
    intros f2 [= <-]. exact (counts_family_lower _ _ _ _ _ Hfam). }
  assert (H3 : forall f3, stats_section deluge_stats = Ok f3 ->
                          Forall (fun o => forall l v,
                                      In (l, v) (snd (fst o)) ->
                                      l = "state" \/ l = "label" ->
                                      is_lower_str v = true)
                                 (observations f3)).
  { intros f3 Hf3. pose proof (stats_section_observations _ _ Hf3) as Hnone.
    revert Hnone. apply Forall_impl. intros [[name labels] value]. simpl.
    destruct labels; [|discriminate]. intros _ l v []. }
  assert (H4 : forall f4, fst (torrents_section deluge_stats) = Ok f4 ->
                          Forall (fun o => forall l v,
                                      In (l, v) (snd (fst o)) ->
                                      l = "state" \/ l = "label" ->
                                      is_lower_str v = true)
                                 (observations f4)).
  { unfold torrents_section.
    destruct (getitem_str deluge_stats "torrents") as [torrents|e];
      [|discriminate].
    unfold process_torrents_stats.
    destruct torrents as [| | | | | |ts]; try discriminate.
    destruct (process_values ts res_init) as [[res|e] ts'] eqn:Hloop;
      cbn [fst rbind]; [|discriminate].
    intros f4 [= <-]. apply torrents_families_lower.
    refine (process_values_lower _ _ _ _ _ Hloop).
    unfold res_init. apply Forall_map. apply Forall_forall. intros kf _.
    constructor. }
  unfold map_stats.
  destruct (state_section deluge_stats) as [f1|e]; [|constructor].
  specialize (H1 _ eq_refl). apply Hcounts in H1.
  destruct (label_section deluge_stats) as [f2|e]; [|exact H1].
  specialize (H2 _ eq_refl). apply Hcounts in H2.
  destruct (stats_section deluge_stats) as [f3|e];
    [|cbn [fst]; rewrite observations_app; apply Forall_app; now split].
  specialize (H3 _ eq_refl).
  destruct (torrents_section deluge_stats) as [[f4|e] after]; cbn [fst] in *.
  - specialize (H4 _ eq_refl). rewrite !observations_app.
    repeat (apply Forall_app; split); assumption.
  - rewrite !observations_app. repeat (apply Forall_app; split); assumption.
Qed.

(** ** When the recoveries are not attempted *)

Section NoRecovery.

Variable server : list request -> post_result.
Variable self : DelugeCollector.

(** What lines 64-69 post after the status of lines 60-63. *)
Lemma requests_after_status (w w1 w' : world) (data : json) (r : result json) :
  status_after_login server self w = (Ok data, w1) ->
  get_deluge_stats server self w = (r, w') ->
  exists post, sent w' = sent w1 ++ post /\ connect_requests self post.
Proof.
  intros H1 Hrun. rewrite get_deluge_stats_unfold in Hrun.
  unfold bind at 1 in Hrun. rewrite H1 in Hrun.
  revert Hrun. unfold bind, lift, ret, raise.
  destruct (getitem_str data "connected") as [c|e].
  2:{ intros [= <- <-]. exists []. rewrite app_nil_r. split; [auto|now left]. }
  destruct (negb (truthy c)).
  - destruct (get_connection server self w1) as [[[]|e] w2] eqn:H2;
      pose proof (get_connection_sent _ _ _ _ _ H2) as Hs2.
    + destruct Hs2 as [[_ Hne]|[id Hs2]]; [congruence|].
      assert (Hw' : sent w' = sent w2 ++ [update_ui_request self]
                    -> exists post, sent w' = sent w1 ++ post /\
                                    connect_requests self post).
      { intros Hw'.
        exists [get_hosts_request self; connect_request self id;
                update_ui_request self].
        split; [rewrite Hw', Hs2, <- app_assoc; reflexivity|].
        right. right. exists id. now right. }
      destruct (get_webui_data server self w2) as [[d3|e] w3] eqn:H3;
        pose proof (get_webui_data_world _ _ _ _ _ H3) as ->.
      * intros Hend. apply Hw'. revert Hend. destruct (is_None d3).
        -- now intros [= <- <-].
        -- destruct (getitem_str d3 "connected") as [c3|e];
             [destruct (negb (truthy c3))|]; now intros [= <- <-].
      * intros [= <- <-]. now apply Hw'.
    + intros [= <- <-].
      destruct Hs2 as [[Hs2 _]|[id Hs2]]; rewrite Hs2; eexists;
        (split; [reflexivity|]).
      * right. now left.
      * right. right. exists id. now left.
  - intros Hend. exists []. rewrite app_nil_r. split; [|now left].
    revert Hend. destruct (is_None data).
    + now intros [= <- <-].
    + destruct (getitem_str data "connected") as [c1|e];
        [destruct (negb (truthy c1))|]; now intros [= <- <-].
Qed.

Lemma status_after_login_not_null (w : world) (data : json) :
  answers server (sent w ++ [update_ui_request self]) data ->
  data <> JNull ->
  status_after_login server self w
  = (Ok data, mkWorld (sent w ++ [update_ui_request self]) (logged w)).
Proof.
  intros Hanswer Hdata. unfold status_after_login, bind.
  rewrite (get_webui_data_answered _ _ _ _ Hanswer).
  destruct data; try reflexivity. contradiction.
Qed.

End NoRecovery.

(** X19.  The login is attempted only on a null status: when the first
    status query answers anything else, the call posts no [auth.login]
    request, so the password is not sent; what it posts after the status
    query is at most the connect recovery and the last status query. *)
Theorem no_login_without_null_status
  (server : list request -> post_result) (self : DelugeCollector)
  (w w' : world) (data : json) (r : result json) :
  answers server (sent w ++ [update_ui_request self]) data ->
  data <> JNull ->
  get_deluge_stats server self w = (r, w') ->
  exists post,
    sent w' = sent w ++ update_ui_request self :: post /\
    connect_requests self post /\
    forall q, In q (update_ui_request self :: post) ->
              req_method q <> "auth.login".
Proof.
  intros Hanswer Hdata Hrun.
  pose proof (status_after_login_not_null _ _ _ _ Hanswer Hdata) as H1.
  destruct (requests_after_status _ _ _ _ _ _ _ H1 Hrun) as (post & Hsent & Hpost).
  exists post. split; [|split; [exact Hpost|]].
  - rewrite Hsent. cbn [sent]. now rewrite <- app_assoc.
  - intros q [<-|Hq]; [discriminate|].
    destruct Hpost as [->|[->|[id [->| ->]]]]; simpl in Hq;
      repeat (destruct Hq as [<-|Hq]; [discriminate|]); contradiction.
Qed.

(** X19 on an upstream that is logged in but disconnected and lists no
    host. *)
Lemma no_login_without_null_status_witness :
  exists post,
    sent (hosts_asked a_collector (mkWorld [update_ui_request a_collector] []))
    = sent world0 ++ update_ui_request a_collector :: post /\
    connect_requests a_collector post /\
    forall q, In q (update_ui_request a_collector :: post) ->
              req_method q <> "auth.login".
Proof.
  apply (no_login_without_null_status
           (scripted [ok200 (JObj [("connected", JBool false)]);
                      ok200 (JArr [])])
           a_collector world0 _
           (JObj [("connected", JBool false)])
           (Raise (GetConnectionBadResponse ""))).
  - exists "", (JObj [("result", JObj [("connected", JBool false)])]).
    split; reflexivity.
  - discriminate.
  - reflexivity.
Defined.

(** X20.  A first status that is not null and cannot be subscripted with
    "connected", because it is a dict without that member or not a dict
    at all, ends the call with the [KeyError] or [TypeError] of line 64:
    one request posted, no recovery, and not the "Get stats error!"
    exception. *)
Theorem status_without_connected_member
  (server : list request -> post_result) (self : DelugeCollector)
  (w : world) (data : json) (e : exn) :
  answers server (sent w ++ [update_ui_request self]) data ->
  data <> JNull ->
  getitem_str data "connected" = Raise e ->
  get_deluge_stats server self w
  = (Raise e, mkWorld (sent w ++ [update_ui_request self]) (logged w)) /\
  (e = KeyError (JStr "connected") \/ e = TypeError) /\
  is_SessionError e = false.
Proof.
  intros Hanswer Hdata Hget. split; [|split].
  - rewrite get_deluge_stats_unfold. unfold bind at 1.
    rewrite (status_after_login_not_null _ _ _ _ Hanswer Hdata).
    unfold bind, lift. now rewrite Hget.
  - destruct data as [| | | | | |kvs]; simpl in Hget;
      try (injection Hget as <-; now right).
    destruct (assoc "connected" kvs); [discriminate|].
    injection Hget as <-. now left.
  - destruct data as [| | | | | |kvs]; simpl in Hget;
      try (injection Hget as <-; reflexivity).
    destruct (assoc "connected" kvs); [discriminate|].
    now injection Hget as <-.
Qed.

(** X20 on an upstream that answers an empty dict. *)
Lemma status_without_connected_member_witness :
  get_deluge_stats (scripted [ok200 (JObj [])]) a_collector world0
  = (Raise (KeyError (JStr "connected")),
     mkWorld (sent world0 ++ [update_ui_request a_collector]) (logged world0)).
Proof.
  refine (proj1 (status_without_connected_member
                   (scripted [ok200 (JObj [])]) a_collector world0 (JObj [])
                   (KeyError (JStr "connected")) _ _ eq_refl)).
  - exists "", (JObj [("result", JObj [])]). split; reflexivity.
  - discriminate.
Defined.

(** X21.  With [LISTEN_ADDRESS] and [LISTEN_PORT] unset, a start-up in
    which the constructor's status is connected and the scrape run by
    [REGISTRY.register] ends without an exception calls
    [start_http_server] with port 8011 and address 0.0.0.0 ([int] is not
    called); when that call returns, [main] sleeps with one collector
    registered, for the URL with "json" appended, and the server listening
    there. *)
Theorem default_listen_address
  (server : list request -> post_result) (environ : list (string * string))
  (basicConfig : string -> result unit) (py_int : string -> result Z)
  (start_http_server : Z -> string -> result unit)
  (deluge_url deluge_password : string) (data : json) (w1 w2 : world)
  (families : list family) :
  basicConfig (match getenv "LOG_LEVEL" environ with
               | Some l => l
               | None => "INFO"
               end) = Ok tt ->
  getenv "DELUGE_URL" environ = Some deluge_url ->
  getenv "DELUGE_PASSWORD" environ = Some deluge_password ->
  getenv "LISTEN_ADDRESS" environ = None ->
  getenv "LISTEN_PORT" environ = None ->
  get_deluge_stats server (mkCollector (api_url deluge_url) deluge_password)
                   started = (Ok data, w1) ->
  collect server (mkCollector (api_url deluge_url) deluge_password) w1
  = ((families, None), w2) ->
  main server environ basicConfig py_int start_http_server
  = match start_http_server 8011%Z "0.0.0.0" with
    | Ok _ =>
        (Sleeping,
         mkProcess (log_info "Server listening in http://%s:%d/metrics" w2)
                   [mkCollector (api_url deluge_url) deluge_password]
                   (Some ("0.0.0.0", 8011%Z)))
    | Raise e =>
        (Uncaught e,
         mkProcess w2 [mkCollector (api_url deluge_url) deluge_password] None)
    end.
Proof.
  intros Hlog Hurl Hpw Haddress Hport Hrun Hscrape.
  unfold main, init, register, bind, ret.
  rewrite Hlog, Hurl, Hpw, Haddress, Hport, Hrun, Hscrape.
  now destruct (start_http_server 8011%Z "0.0.0.0").
Qed.

End Python.

(** * Concrete runs *)

(** The properties above hold for whatever [str.lower] returns.  The runs
    below take [ascii_lower] for it: every string in them has ASCII
    characters only, on which [ascii_lower] is what [str.lower] does. *)

(** C2 on a snapshot with a complete torrent and one that has only its
    state. *)
Lemma incomplete_torrent_ends_the_mapping_witness :
  (exists e,
     snd (fst (map_stats ascii_lower
                 (a_snapshot [("t1", a_torrent "Ubuntu" "Seeding");
                              ("t2", JObj [("state", JStr "Paused")])])))
     = Some e) /\
  filter is_torrent_observation
    (observations
       (fst (fst (map_stats ascii_lower
                    (a_snapshot [("t1", a_torrent "Ubuntu" "Seeding");
                                 ("t2", JObj [("state", JStr "Paused")])])))))
  = [].
Proof.
  destruct (incomplete_torrent_ends_the_mapping ascii_lower
              (a_snapshot [("t1", a_torrent "Ubuntu" "Seeding");
                           ("t2", JObj [("state", JStr "Paused")])])
              [("t1", a_torrent "Ubuntu" "Seeding");
               ("t2", JObj [("state", JStr "Paused")])]
              "t2" (JObj [("state", JStr "Paused")])
              eq_refl (or_intror (or_introl eq_refl)) eq_refl)
    as (Hends & Hnone & _).
  exact (conj Hends Hnone).
Defined.

(** C2 fails as stated: with a complete torrent and an incomplete one in
    the snapshot, the generator ends with the [KeyError] of the missing
    field and the complete torrent has no observation either. *)
Lemma incomplete_torrent_is_not_skipped :
  snd (fst (map_stats ascii_lower
              (a_snapshot [("t1", a_torrent "Ubuntu" "Seeding");
                           ("t2", JObj [("state", JStr "Paused")])])))
  = Some (KeyError (JStr "name"))
  /\ complete (a_torrent "Ubuntu" "Seeding") = true
  /\ ~ skips_incomplete_torrents ascii_lower
         (a_snapshot [("t1", a_torrent "Ubuntu" "Seeding");
                      ("t2", JObj [("state", JStr "Paused")])]).
Proof.
  split; [reflexivity|]. split; [reflexivity|].
  intros Hskip. destruct (Hskip _ eq_refl) as [Hends _].
  vm_compute in Hends. discriminate Hends.
Qed.

(** C3 on a scrape whose upstream rejects the password. *)
Lemma collect_catches_session_errors_witness :
  collect ascii_lower (scripted [ok200 JNull; ok200 (JBool false)])
          a_collector world0
  = (([], None),
     mkWorld [update_ui_request a_collector; login_request a_collector]
             ([(INFO, LogStr "Loging in Deluge Web UI...")]
                ++ [(ERROR, LogExn GetLoginBadCredentials)])).
Proof.
  exact (collect_catches_session_errors ascii_lower
           (scripted [ok200 JNull; ok200 (JBool false)]) a_collector world0
           (mkWorld [update_ui_request a_collector; login_request a_collector]
                    [(INFO, LogStr "Loging in Deluge Web UI...")])
           (Raise GetLoginBadCredentials) eq_refl).
Defined.

(** C3 fails as stated: when the mapping raises (here on a torrent record
    without a name) the exception ends the generator of [collect] instead of
    being caught, after the families of the earlier sections have been
    yielded, and nothing is logged. *)
Lemma collect_lets_mapping_errors_through :
  snd (fst (collect ascii_lower
              (scripted [ok200 (a_snapshot
                                  [("t2", JObj [("state", JStr "Paused")])])])
              a_collector world0))
  = Some (KeyError (JStr "name"))
  /\ List.length
       (fst (fst (collect ascii_lower
                    (scripted [ok200 (a_snapshot
                                        [("t2", JObj [("state", JStr "Paused")])])])
                    a_collector world0))) = 4%nat
  /\ logged (snd (collect ascii_lower
                    (scripted [ok200 (a_snapshot
                                        [("t2", JObj [("state", JStr "Paused")])])])
                    a_collector world0)) = []
  /\ fst (collect ascii_lower
            (scripted [ok200 (a_snapshot
                                [("t2", JObj [("state", JStr "Paused")])])])
            a_collector world0)
     <> ([], None).
Proof.
  repeat split; try reflexivity.
  intros H. vm_compute in H. discriminate H.
Qed.



(** C7 on a snapshot with one seeding torrent. *)
Lemma mapping_twice_same_observations_witness :
  Permutation
    (observations
       (fst (fst (map_stats ascii_lower
                    (snd (map_stats ascii_lower
                            (a_snapshot
                               [("t1", a_torrent "Ubuntu" "Seeding")])))))))
    (observations
       (fst (fst (map_stats ascii_lower
                    (a_snapshot [("t1", a_torrent "Ubuntu" "Seeding")])))))
  /\ snd (fst (map_stats ascii_lower
                 (snd (map_stats ascii_lower
                         (a_snapshot
                            [("t1", a_torrent "Ubuntu" "Seeding")])))))
     = snd (fst (map_stats ascii_lower
                   (a_snapshot [("t1", a_torrent "Ubuntu" "Seeding")]))).
Proof.
  exact (mapping_twice_same_observations ascii_lower ascii_lower_idempotent
           (a_snapshot [("t1", a_torrent "Ubuntu" "Seeding")])).
Defined.





(** C9 on a start-up against an upstream that cannot be reached. *)
Lemma startup_failure_is_fatal_witness :
  main ascii_lower (scripted [])
       [("DELUGE_URL", "http://deluge:8112"); ("DELUGE_PASSWORD", "deluge")]
       (fun _ => Ok tt) (fun _ => Ok 8011%Z) (fun _ _ => Ok tt)
  = (Uncaught (RequestException "ConnectionError"),
     mkProcess
       (mkWorld [update_ui_request a_collector]
                [(INFO, LogStr "Starting Deluge Prometheus Exporter ...")])
       [] None).
Proof.
  exact (proj1 (proj2 (proj2 (startup_failure_is_fatal ascii_lower
                         (scripted [])
                         [("DELUGE_URL", "http://deluge:8112");
                          ("DELUGE_PASSWORD", "deluge")]
                         (fun _ => Ok tt) (fun _ => Ok 8011%Z)
                         (fun _ _ => Ok tt)
                         "http://deluge:8112" "deluge" 8011%Z
                         (RequestException "ConnectionError")
                         (mkWorld [update_ui_request a_collector]
                                  [(INFO, LogStr "Starting Deluge Prometheus Exporter ...")])
                         eq_refl eq_refl eq_refl eq_refl eq_refl)))).
Defined.

(** X4 on an upstream that answers 503. *)
Lemma failed_status_query_ends_the_scrape_witness :
  collect ascii_lower
          (scripted [PostReturns (mkResponse 503 "Service Unavailable" None)])
          a_collector world0
  = (([], None),
     mkWorld (sent world0 ++ [update_ui_request a_collector])
             (logged world0
                ++ [(ERROR,
                     LogExn (GetStatsBadHTTP 503 "Service Unavailable"))])).
Proof.
  apply (failed_status_query_ends_the_scrape ascii_lower
           (scripted [PostReturns (mkResponse 503 "Service Unavailable" None)])
           a_collector world0).
  discriminate.
Defined.

(** X9 on the scenario: three downloading, seven seeding. *)
Lemma state_counts_are_observed_witness :
  state_section ascii_lower (a_snapshot [])
  = Ok [mkFamily "deluge_torrent_state_count" "Number of torrents by state"
                 ["state"]
                 (count_samples ascii_lower
                    [("Downloading", JInt 3); ("Seeding", JInt 7)])]
  /\ observations
       [mkFamily "deluge_torrent_state_count" "Number of torrents by state"
                 ["state"]
                 (count_samples ascii_lower
                    [("Downloading", JInt 3); ("Seeding", JInt 7)])]
     = [("deluge_torrent_state_count", [("state", JStr "downloading")],
         JInt 3);
        ("deluge_torrent_state_count", [("state", JStr "seeding")], JInt 7)].
Proof.
  exact (state_counts_are_observed ascii_lower (a_snapshot []) _
           [("Downloading", JInt 3); ("Seeding", JInt 7)] eq_refl eq_refl).
Defined.

(** X10 on a snapshot whose filters have no label category. *)
Lemma label_counts_are_optional_witness :
  label_section ascii_lower (a_snapshot [])
  = Ok [mkFamily "deluge_torrent_label_count" "Number of torrents by label"
                 ["label"] []].
Proof.
  apply (proj1 (label_counts_are_optional ascii_lower (a_snapshot []) _
                  eq_refl)).
  reflexivity.
Defined.


(** X14 on a snapshot with one seeding torrent. *)
Lemma state_and_label_values_are_lower_case_witness :
  Forall
    (fun o : observation =>
       forall l v, In (l, v) (snd (fst o)) ->
                   l = "state" \/ l = "label" ->
                   is_lower_str ascii_lower v = true)
    (observations
       (fst (fst (map_stats ascii_lower
                    (a_snapshot [("t1", a_torrent "Ubuntu" "Seeding")]))))).
Proof.
  exact (state_and_label_values_are_lower_case ascii_lower
           ascii_lower_idempotent
           (a_snapshot [("t1", a_torrent "Ubuntu" "Seeding")])).
Defined.

(** X15 on the three snapshots. *)
Lemma missing_member_ends_the_mapping_witness :
  map_stats ascii_lower (JObj [("connected", JBool true)])
  = (([], Some (KeyError (JStr "filters"))), JObj [("connected", JBool true)])
  /\ snd (fst (map_stats ascii_lower
                 (JObj [("connected", JBool true);
                        ("filters", JObj [("state", JArr [])])])))
     = Some (KeyError (JStr "stats"))
  /\ snd (fst (map_stats ascii_lower
                 (JObj [("connected", JBool true);
                        ("filters", JObj [("state", JArr [])]);
                        ("stats", JObj [])])))
     = Some (KeyError (JStr "torrents")).
Proof.
  split; [|split].
  - exact (proj1 (missing_member_ends_the_mapping ascii_lower
                    [("connected", JBool true)]) eq_refl).
  - exact (f_equal (fun r => snd (fst r))
             (proj1 (proj2 (missing_member_ends_the_mapping ascii_lower
                              [("connected", JBool true);
                               ("filters", JObj [("state", JArr [])])]))
                _ _ eq_refl eq_refl eq_refl)).
  - exact (f_equal (fun r => snd (fst r))
             (proj2 (proj2 (missing_member_ends_the_mapping ascii_lower
                              [("connected", JBool true);
                               ("filters", JObj [("state", JArr [])]);
                               ("stats", JObj [])]))
                _ _ _ eq_refl eq_refl eq_refl eq_refl)).
Defined.

(** X16 on an environment without the password. *)
Lemma missing_configuration_exits_witness :
  exists variable,
    (variable = "DELUGE_URL" \/ variable = "DELUGE_PASSWORD") /\
    getenv variable [("DELUGE_URL", "http://deluge:8112")] = None /\
    main ascii_lower (scripted []) [("DELUGE_URL", "http://deluge:8112")]
         (fun _ => Ok tt) (fun _ => Ok 8011%Z) (fun _ _ => Ok tt)
    = (Exit 1,
       mkProcess
         (mkWorld []
            [(INFO, LogStr "Starting Deluge Prometheus Exporter ...");
             (ERROR,
              LogStr ("Configuration error. The environment variable "
                        ++ variable ++ " is mandatory"))])
         [] None).
Proof.
  apply (missing_configuration_exits ascii_lower
           (scripted []) [("DELUGE_URL", "http://deluge:8112")]
           (fun _ => Ok tt) (fun _ => Ok 8011%Z) (fun _ _ => Ok tt) eq_refl).
  right. reflexivity.
Defined.

(** X21 on an upstream that is connected at the constructor's query and at
    the scrape of the registration, with a server that starts. *)
Lemma default_listen_address_witness :
  main ascii_lower (scripted [ok200 (a_snapshot []); ok200 (a_snapshot [])])
       [("DELUGE_URL", "http://deluge:8112"); ("DELUGE_PASSWORD", "deluge")]
       (fun _ => Ok tt) (fun _ => Raise ValueError) (fun _ _ => Ok tt)
  = (Sleeping,
     mkProcess
       (log_info "Server listening in http://%s:%d/metrics"
          (mkWorld [update_ui_request a_collector;
                    update_ui_request a_collector]
                   [(INFO, LogStr "Starting Deluge Prometheus Exporter ...")]))
       [mkCollector (api_url "http://deluge:8112") "deluge"]
       (Some ("0.0.0.0", 8011%Z))).
Proof.
  exact (default_listen_address ascii_lower
           (scripted [ok200 (a_snapshot []); ok200 (a_snapshot [])])
           [("DELUGE_URL", "http://deluge:8112"); ("DELUGE_PASSWORD", "deluge")]
           (fun _ => Ok tt) (fun _ => Raise ValueError) (fun _ _ => Ok tt)
           "http://deluge:8112" "deluge" (a_snapshot []) _ _ _
           eq_refl eq_refl eq_refl eq_refl eq_refl eq_refl eq_refl).
Defined.
